(** * Urban transport platform: ingestion, batch aggregates and query resolver

    A shallow embedding of the three programs of the repository:

    - [data-generator/generate.py]: the ingestion script (module [Generator]);
    - [spark-jobs/analytics.py]: the five batch aggregates (module [Analytics]);
    - [api/main.py]: the query endpoints (module [Api]).

    The stores are external engines.  The Record Store (the MongoDB
    collection [trips]) is a list of trip documents in scan order, the Counter
    Store (two Cassandra counter tables) is a pair of finite maps, and the
    artifact directory maps a file name to the state of that file.

    Numbers: [distance_km] and [price_eur] are IEEE doubles in the programs and
    exact rationals here; integers are unbounded in Python and are [Z] or
    [nat] here. *)

From Stdlib Require Import ZArith QArith Qabs Qround Lia Permutation Sorted Ascii.
From stdpp Require Import base gmap strings list sorting.

#[local] Set Warnings "-register-all".
Local Open Scope Z_scope.

(** ** Python values that cross the HTTP boundary *)

(** What [json.load] returns and what an endpoint hands back to FastAPI. *)
Inductive json :=
| JNull
| JBool (b : bool)
| JInt (z : Z)
| JFloat (q : Q)
| JStr (s : string)
| JArr (l : list json)
| JObj (fields : list (string * json)).

(** Python truthiness, as used by [if spark_data:]. *)
Definition truthy (v : json) : bool :=
  match v with
  | JNull => false
  | JBool b => b
  | JInt z => negb (z =? 0)
  | JFloat q => negb (Qeq_bool q 0)
  | JStr s => negb (String.eqb s "")
  | JArr l => match l with [] => false | _ => true end
  | JObj f => match f with [] => false | _ => true end
  end.

(** Truthiness of an optional query parameter ([if city:]): [None] and the
    empty string are both false. *)
Definition param_truthy (p : option string) : bool :=
  match p with
  | None => false
  | Some s => negb (String.eqb s "")
  end.

Inductive exn :=
| OSError
| UnicodeDecodeError
| JSONDecodeError
| RecursionError
| TypeError
| OperationFailure
| OverflowError.

(** A call either returns or raises; nothing in [main.py] catches. *)
Inductive outcome (A : Type) :=
| Return (a : A)
| Raise (e : exn).
Arguments Return {A} a.
Arguments Raise {A} e.

Definition bind {A B} (m : outcome A) (k : A -> outcome B) : outcome B :=
  match m with
  | Return a => k a
  | Raise e => Raise e
  end.

(** The type tag of a value, for row schemas. *)
Inductive jtype := TNull | TBool | TInt | TFloat | TStr | TArr | TObj.

Definition type_of (v : json) : jtype :=
  match v with
  | JNull => TNull
  | JBool _ => TBool
  | JInt _ => TInt
  | JFloat _ => TFloat
  | JStr _ => TStr
  | JArr _ => TArr
  | JObj _ => TObj
  end.

(** Field names with the type of each value. *)
Definition schema_of (v : json) : gmap string jtype :=
  match v with
  | JObj fields => list_to_map (fmap (fun kv => (kv.1, type_of kv.2)) fields)
  | _ => ∅
  end.

(** ** [datetime] *)

Module Datetime.

Record datetime := {
  year : Z; month : Z; day : Z;
  hour : Z; minute : Z; second : Z; microsecond : Z
}.

Definition is_leap (y : Z) : bool :=
  (y mod 4 =? 0) && (negb (y mod 100 =? 0) || (y mod 400 =? 0)).

Definition days_in_month (y m : Z) : Z :=
  if (m =? 2) && is_leap y then 29
  else nth (Z.to_nat m) [0; 31; 28; 31; 30; 31; 30; 31; 31; 30; 31; 30; 31] 0.

(** What the constructor of [datetime] checks. *)
Definition valid (d : datetime) : Prop :=
  1 <= year d <= 9999 /\ 1 <= month d <= 12 /\
  1 <= day d <= days_in_month (year d) (month d) /\
  0 <= hour d <= 23 /\ 0 <= minute d <= 59 /\ 0 <= second d <= 59 /\
  0 <= microsecond d <= 999999.

Definition days_before_year (y : Z) : Z :=
  let y' := y - 1 in y' * 365 + y' / 4 - y' / 100 + y' / 400.

Definition days_before_month (y m : Z) : Z :=
  nth (Z.to_nat m) [0; 0; 31; 59; 90; 120; 151; 181; 212; 243; 273; 304; 334] 0
  + (if (2 <? m) && is_leap y then 1 else 0).

Definition toordinal (d : datetime) : Z :=
  days_before_year (year d) + days_before_month (year d) (month d) + day d.

(** Monday is 0. *)
Definition weekday (d : datetime) : Z := (toordinal d + 6) mod 7.

Definition day_names : list string :=
  ["Monday"; "Tuesday"; "Wednesday"; "Thursday"; "Friday"; "Saturday"; "Sunday"].

Definition digit (n : Z) : ascii := ascii_of_nat (48 + Z.to_nat (n mod 10)).

Definition dec2 (n : Z) : string :=
  String (digit (n / 10)) (String (digit n) "").

Definition dec4 (n : Z) : string :=
  String (digit (n / 1000)) (String (digit (n / 100)) (dec2 n)).

(** [ts.strftime("%A")], in the C locale. *)
Definition strftime_A (d : datetime) : string :=
  nth (Z.to_nat (weekday d)) day_names "".

(** [%Y] as the C library of the deployment (glibc) prints it: the decimal
    digits of the year, without padding. *)
Definition dec (n : Z) : string :=
  if n <? 10 then String (digit n) ""
  else if n <? 100 then dec2 n
  else if n <? 1000 then String (digit (n / 100)) (dec2 n)
  else dec4 n.

(** [ts.strftime("%Y-%m-%d")]: ten characters from the year 1000 on, fewer
    before. *)
Definition strftime_Ymd (d : datetime) : string :=
  dec (year d) +:+ "-" +:+ dec2 (month d) +:+ "-" +:+ dec2 (day d).

End Datetime.

(** ** Trip documents *)

Record trip := {
  trip_id : string;
  user_id : string;
  city : string;
  zone_start : string;
  zone_end : string;
  distance_km : Q;
  price_eur : Q;
  timestamp : Datetime.datetime;
  hour : Z;
  day_of_week : string;
  date : string
}.

(** ** The stores *)

(** The CQL statements the generator executes: the two [TRUNCATE]s and the
    two prepared counter updates. *)
Inductive cql :=
| truncate_by_hour
| truncate_by_zone
| insert_hour (c d : string) (h : Z)
| insert_zone (c z : string).

(** [collection] is the MongoDB collection [transport.trips] in insertion
    order; [trips_by_hour] and [trips_by_zone] are the Cassandra counter
    tables, a missing row standing for the counter value 0. *)
Record stores := {
  collection : list trip;
  trips_by_hour : gmap (string * string * Z) nat;
  trips_by_zone : gmap (string * string) nat
}.

(** [UPDATE t SET trip_count = trip_count + 1 WHERE key = k]. *)
Definition counter_incr `{Countable K} (k : K) (m : gmap K nat) : gmap K nat :=
  <[k := S (default 0%nat (m !! k))]> m.

Definition counter_read `{Countable K} (k : K) (m : gmap K nat) : nat :=
  default 0%nat (m !! k).

(** ** [data-generator/generate.py] *)

Module Generator.

(** What one iteration of the loop draws from its environment: the value of
    [datetime.now() - timedelta(...)], the two [uuid4] strings, the
    [random.choice] picks and the two rounded [random.uniform] draws. *)
Record sample := {
  s_ts : Datetime.datetime;
  s_trip_id : string;
  s_user_id : string;
  s_city : string;
  s_zone_start : string;
  s_zone_end : string;
  s_distance_km : Q;
  s_price_eur : Q
}.

(** The document built at lines 74-86. *)
Definition mk_trip (s : sample) : trip :=
  let ts := s_ts s in
  let date_str := Datetime.strftime_Ymd ts in
  {| trip_id := s_trip_id s;
     user_id := s_user_id s;
     city := s_city s;
     zone_start := s_zone_start s;
     zone_end := s_zone_end s;
     distance_km := s_distance_km s;
     price_eur := s_price_eur s;
     timestamp := ts;
     hour := Datetime.hour ts;
     day_of_week := Datetime.strftime_A ts;
     date := date_str |}.

(** The two counter statements of one iteration, lines 90-91. *)
Definition increments (s : sample) : list cql :=
  [insert_hour (s_city s) (Datetime.strftime_Ymd (s_ts s)) (Datetime.hour (s_ts s));
   insert_zone (s_city s) (s_zone_start s)].

(** The state the script threads through its loop: the stores, the
    in-memory batch, and two logs (the [insert_many] calls and the
    [session.execute] calls, oldest first). *)
Record state := {
  st_stores : stores;
  batch_docs : list trip;
  bulk_writes : list (list trip);
  executed : list cql
}.

Definition insert_many (docs : list trip) (st : state) : state :=
  {| st_stores :=
       {| collection := collection (st_stores st) ++ docs;
          trips_by_hour := trips_by_hour (st_stores st);
          trips_by_zone := trips_by_zone (st_stores st) |};
     batch_docs := batch_docs st;
     bulk_writes := bulk_writes st ++ [docs];
     executed := executed st |}.

Definition execute (q : cql) (st : state) : state :=
  let s := st_stores st in
  {| st_stores :=
       match q with
       | truncate_by_hour =>
           {| collection := collection s; trips_by_hour := ∅;
              trips_by_zone := trips_by_zone s |}
       | truncate_by_zone =>
           {| collection := collection s; trips_by_hour := trips_by_hour s;
              trips_by_zone := ∅ |}
       | insert_hour c d h =>
           {| collection := collection s;
              trips_by_hour := counter_incr (c, d, h) (trips_by_hour s);
              trips_by_zone := trips_by_zone s |}
       | insert_zone c z =>
           {| collection := collection s; trips_by_hour := trips_by_hour s;
              trips_by_zone := counter_incr (c, z) (trips_by_zone s) |}
       end;
     batch_docs := batch_docs st;
     bulk_writes := bulk_writes st;
     executed := executed st ++ [q] |}.

Definition set_batch (b : list trip) (st : state) : state :=
  {| st_stores := st_stores st; batch_docs := b;
     bulk_writes := bulk_writes st; executed := executed st |}.

(** Lines 26-36: [collection.drop()] and the two [TRUNCATE]s. *)
Definition reset (s0 : stores) : state :=
  let st := {| st_stores :=
                 {| collection := []; trips_by_hour := trips_by_hour s0;
                    trips_by_zone := trips_by_zone s0 |};
               batch_docs := []; bulk_writes := []; executed := [] |} in
  execute truncate_by_zone (execute truncate_by_hour st).

(** The body of the [for] loop, lines 61-96. *)
Definition loop_body (BATCH_SIZE : Z) (st : state) (s : sample) : state :=
  let trip := mk_trip s in
  let st := set_batch (batch_docs st ++ [trip]) st in
  let st := execute (insert_hour (s_city s) (Datetime.strftime_Ymd (s_ts s))
                                (Datetime.hour (s_ts s))) st in
  let st := execute (insert_zone (s_city s) (s_zone_start s)) st in
  if Z.of_nat (length (batch_docs st)) =? BATCH_SIZE
  then set_batch [] (insert_many (batch_docs st) st)
  else st.

(** The test of line 94, on the batch with the new trip appended. *)
Definition full (BATCH_SIZE : Z) (st : state) (s : sample) : bool :=
  Z.of_nat (length (batch_docs st ++ [mk_trip s])) =? BATCH_SIZE.

(** Lines 99-100: [if batch_docs: collection.insert_many(batch_docs)]. *)
Definition flush_rest (st : state) : state :=
  match batch_docs st with
  | [] => st
  | _ => insert_many (batch_docs st) st
  end.

(** The samples of a run: iteration [i] of [range(TOTAL_TRIPS)] draws
    [draw i]. *)
Definition samples (draw : nat -> sample) (TOTAL_TRIPS : Z) : list sample :=
  fmap draw (seq 0 (Z.to_nat TOTAL_TRIPS)).

(** The state after the first [k] iterations of the loop. *)
Definition after (draw : nat -> sample) (TOTAL_TRIPS BATCH_SIZE : Z)
    (s0 : stores) (k : nat) : state :=
  fold_left (loop_body BATCH_SIZE) (take k (samples draw TOTAL_TRIPS))
            (reset s0).

(** The whole script, from the state the stores were found in. *)
Definition run (draw : nat -> sample) (TOTAL_TRIPS BATCH_SIZE : Z)
    (s0 : stores) : state :=
  flush_rest (fold_left (loop_body BATCH_SIZE) (samples draw TOTAL_TRIPS)
                        (reset s0)).

End Generator.

(** ** What the engines do with a pipeline stage

    MongoDB's [$group] and Spark's [groupBy] emit one row per distinct key, in
    an order neither engine specifies; [$sort] and [orderBy] leave the
    relative order of rows with equal sort keys unspecified as well.  The model
    fixes one behaviour: groups come out in the order of [remove_dups] over
    the scan, and sorting is a stable insertion sort. *)

Section Engine.
Context {A : Type}.

(** One row per distinct key, with the members of the group. *)
Definition group_by `{EqDecision K} (key : A -> K) (rows : list A)
    : list (K * list A) :=
  fmap (fun k => (k, filter (fun x => key x = k) rows))
      (remove_dups (fmap key rows)).

Fixpoint insert_by (le : A -> A -> bool) (x : A) (l : list A) : list A :=
  match l with
  | [] => [x]
  | y :: l' => if le x y then x :: l else y :: insert_by le x l'
  end.

Definition sort_by (le : A -> A -> bool) (l : list A) : list A :=
  foldr (insert_by le) [] l.

(** Sort directions and secondary keys. *)
Definition asc {K} (le : K -> K -> bool) (f : A -> K) : A -> A -> bool :=
  fun x y => le (f x) (f y).

Definition desc {K} (le : K -> K -> bool) (f : A -> K) : A -> A -> bool :=
  fun x y => le (f y) (f x).

Definition then_by (le1 le2 : A -> A -> bool) : A -> A -> bool :=
  fun x y => if le1 x y then (if le1 y x then le2 x y else true) else false.

(** Python's [l[:stop]]. *)
Definition py_slice_stop (l : list A) (stop : Z) : list A :=
  if 0 <=? stop then take (Z.to_nat stop) l
  else take (Z.to_nat (Z.max 0 (Z.of_nat (length l) + stop))) l.

(** MongoDB's [$limit] stage: the server rejects a limit that is not
    positive, and the driver cannot encode one beyond 64 bits. *)
Definition mongo_limit (n : Z) (l : list A) : outcome (list A) :=
  if n <=? 0 then Raise OperationFailure
  else if 2 ^ 63 <=? n then Raise OverflowError
  else Return (take (Z.to_nat n) l).

End Engine.

(** ** Means and rounding to a number of decimal places

    The engines compute on IEEE doubles; these definitions compute on exact
    rationals.  The two agree where every value involved is a double that the
    operations leave exact, as the small integers of [db_cities] are; they
    can differ in the last place otherwise. *)

Definition Qsum (l : list Q) : Q := foldr Qplus 0%Q l.

(** [avg] over a group; never called on an empty group. *)
Definition mean (l : list Q) : Q := (Qsum l / inject_Z (Z.of_nat (length l)))%Q.

(** Spark's [round]: ties go away from zero. *)
Definition round_half_up (q : Q) (places : nat) : Q :=
  let s := (10 ^ Z.of_nat places)%Z in
  let x := (Qabs q * inject_Z s)%Q in
  let n := Qfloor (x + (1 # 2))%Q in
  Qred (inject_Z (Z.sgn (Qnum q) * n) / inject_Z s)%Q.

(** MongoDB's [$round]: ties go to the even neighbour. *)
Definition round_half_even (q : Q) (places : nat) : Q :=
  let s := (10 ^ Z.of_nat places)%Z in
  let x := (Qabs q * inject_Z s)%Q in
  let m := Qfloor x in
  let n := match (x - inject_Z m ?= 1 # 2)%Q with
           | Lt => m
           | Gt => m + 1
           | Eq => if Z.even m then m else m + 1
           end in
  Qred (inject_Z (Z.sgn (Qnum q) * n) / inject_Z s)%Q.

(** ** [spark-jobs/analytics.py] *)

Module Analytics.

Definition count_rows {K} (groups : list (K * list trip)) : list (K * nat) :=
  fmap (fun g => (g.1, length g.2)) groups.

(** Lines 42-47. *)
Definition daily (df : list trip) : list (string * nat) :=
  sort_by (asc String.leb fst) (count_rows (group_by date df)).

Definition daily_row (r : string * nat) : json :=
  JObj [("date", JStr r.1); ("trip_count", JInt (Z.of_nat r.2))].

Definition daily_list (df : list trip) : list json :=
  fmap daily_row (daily df).

(** Lines 57-65: the rows are (city, avg_distance, trip_count). *)
Definition avg_dist (df : list trip) : list (string * Q * nat) :=
  sort_by (desc Qle_bool (fun r => r.1.2))
    (fmap (fun g => (g.1, round_half_up (mean (fmap distance_km g.2)) 2,
                    length g.2))
         (group_by city df)).

Definition avg_row (r : string * Q * nat) : json :=
  JObj [("city", JStr r.1.1); ("avg_distance", JFloat r.1.2);
        ("trip_count", JInt (Z.of_nat r.2))].

Definition avg_list (df : list trip) : list json :=
  fmap avg_row (avg_dist df).

(** Lines 75-80. *)
Definition rush (df : list trip) : list (Z * nat) :=
  sort_by (asc Z.leb fst) (count_rows (group_by hour df)).

Definition rush_row (r : Z * nat) : json :=
  JObj [("hour", JInt r.1); ("trip_count", JInt (Z.of_nat r.2))].

Definition rush_list (df : list trip) : list json :=
  fmap rush_row (rush df).

(** Lines 90-95. *)
Definition top_zones (df : list trip) : list (string * nat) :=
  sort_by (desc Nat.leb snd) (count_rows (group_by zone_start df)).

Definition zone_row (r : string * nat) : json :=
  JObj [("zone", JStr r.1); ("trip_count", JInt (Z.of_nat r.2))].

Definition zones_list (df : list trip) : list json :=
  fmap zone_row (top_zones df).

(** Lines 105-112: [ascending=False] applies to both sort columns. *)
Definition by_day (df : list trip) : list (string * string * nat) :=
  sort_by (then_by (desc String.leb (fun r => r.1.1)) (desc Nat.leb snd))
    (fmap (fun g => (g.1, length g.2))
         (group_by (fun t => (city t, day_of_week t)) df)).

Definition day_row (r : string * string * nat) : json :=
  JObj [("city", JStr r.1.1); ("day_of_week", JStr r.1.2);
        ("trip_count", JInt (Z.of_nat r.2))].

Definition day_list (df : list trip) : list json :=
  fmap day_row (by_day df).

End Analytics.

(** ** [api/main.py] *)

Module Api.

(** The state of one file of the [SPARK_OUTPUT] directory: not there; there
    but [open] fails; there but [json.load] fails, because the bytes are not
    text in the default encoding, because the text is not JSON (an empty or
    truncated file, say), or because it nests deeper than the decoder
    recurses; or holding a JSON value. *)
Inductive file_state :=
| Missing
| Unreadable
| NotText
| Malformed
| TooDeep
| Parsed (v : json).

Definition artifact_dir := string -> file_state.

(** Lines 33-39.  Python's [None] is [JNull]. *)
Definition load_spark_result (fs : artifact_dir) (filename : string)
    : outcome json :=
  match fs filename with
  | Missing => Return JNull
  | Unreadable => Raise OSError
  | NotText => Raise UnicodeDecodeError
  | Malformed => Raise JSONDecodeError
  | TooDeep => Raise RecursionError
  | Parsed v => Return v
  end.

(** The stages of the pipelines, as [db.trips.aggregate] runs them. *)
Definition match_city (c : string) (rows : list trip) : list trip :=
  filter (fun t => city t = c) rows.

Definition group_sum1 `{EqDecision K} (key : trip -> K) (rows : list trip)
    : list (K * nat) :=
  fmap (fun g => (g.1, length g.2)) (group_by key rows).

(** [pipeline = []; if city: pipeline.append({"$match": {"city": city}})]. *)
Definition optional_match (city : option string) (rows : list trip)
    : list trip :=
  if param_truthy city then match_city (default "" city) rows else rows.

(** [$group] by date and [$sort] by [_id], then [$project]. *)
Definition daily_rows (rows : list trip) : list (string * nat) :=
  sort_by (asc String.leb fst) (group_sum1 date rows).

Definition daily_doc (r : string * nat) : json :=
  JObj [("trip_count", JInt (Z.of_nat r.2)); ("date", JStr r.1)].

Definition daily_pipeline (rows : list trip) : list json :=
  fmap daily_doc (daily_rows rows).

(** Lines 73-103. *)
Definition daily_stats (fs : artifact_dir) (db : list trip)
    (city : option string) : outcome json :=
  bind (load_spark_result fs "daily.json") (fun spark_data =>
  if truthy spark_data then
    if param_truthy city then
      Return (JArr (daily_pipeline (match_city (default "" city) db)))
    else Return spark_data
  else Return (JArr (daily_pipeline (optional_match city db)))).

Definition hourly_rows (rows : list trip) : list (Z * nat) :=
  sort_by (asc Z.leb fst) (group_sum1 hour rows).

Definition hourly_doc (r : Z * nat) : json :=
  JObj [("trip_count", JInt (Z.of_nat r.2)); ("hour", JInt r.1)].

Definition hourly_pipeline (rows : list trip) : list json :=
  fmap hourly_doc (hourly_rows rows).

(** Lines 106-121. *)
Definition hourly_stats (fs : artifact_dir) (db : list trip)
    (city : option string) : outcome json :=
  bind (load_spark_result fs "rush_hours.json") (fun spark_data =>
  if truthy spark_data && negb (param_truthy city) then Return spark_data
  else Return (JArr (hourly_pipeline (optional_match city db)))).

(** The live rows of [/stats/cities] before [$project]:
    (city, avg_distance, trip_count), sorted by trip_count descending. *)
Definition cities_rows (rows : list trip) : list (string * Q * nat) :=
  sort_by (desc Nat.leb snd)
    (fmap (fun g => (g.1, mean (fmap distance_km g.2), length g.2))
         (group_by city rows)).

Definition city_doc (r : string * Q * nat) : json :=
  JObj [("trip_count", JInt (Z.of_nat r.2)); ("city", JStr r.1.1);
        ("avg_distance", JFloat (round_half_even r.1.2 2))].

Definition cities_pipeline (rows : list trip) : list json :=
  fmap city_doc (cities_rows rows).

(** Lines 124-145. *)
Definition cities_stats (fs : artifact_dir) (db : list trip) : outcome json :=
  bind (load_spark_result fs "avg_distance.json") (fun spark_data =>
  if truthy spark_data then Return spark_data
  else Return (JArr (cities_pipeline db))).

(** [spark_data[:limit]] on whatever [json.load] returned: lists and
    strings can be sliced, nothing else can. *)
Definition slice_json (v : json) (stop : Z) : outcome json :=
  match v with
  | JArr l => Return (JArr (py_slice_stop l stop))
  | JStr s =>
      Return (JStr (String.string_of_list_ascii
                      (py_slice_stop (String.list_ascii_of_string s) stop)))
  | _ => Raise TypeError
  end.

(** The live rows of [/top-zones]: [$group], [$sort], [$limit]. *)
Definition top_zones_rows (limit : Z) (rows : list trip)
    : outcome (list (string * nat)) :=
  mongo_limit limit (sort_by (desc Nat.leb snd) (group_sum1 zone_start rows)).

Definition zone_doc (r : string * nat) : json :=
  JObj [("trip_count", JInt (Z.of_nat r.2)); ("zone", JStr r.1)].

(** Lines 148-161; [limit] is any integer, [Query(10)] sets no bound. *)
Definition top_zones (fs : artifact_dir) (db : list trip) (limit : Z)
    : outcome json :=
  bind (load_spark_result fs "top_zones.json") (fun spark_data =>
  if truthy spark_data then slice_json spark_data limit
  else bind (top_zones_rows limit db) (fun rows =>
       Return (JArr (fmap zone_doc rows)))).

(** The query string may leave [limit] out. *)
Definition top_zones_query (fs : artifact_dir) (db : list trip)
    (limit : option Z) : outcome json :=
  top_zones fs db (default 10 limit).

(** The live rows of [/stats/weekday]: [$group] and [$project], no
    [$sort]. *)
Definition weekday_rows (rows : list trip) : list (string * string * nat) :=
  group_sum1 (fun t => (city t, day_of_week t)) rows.

Definition weekday_doc (r : string * string * nat) : json :=
  JObj [("trip_count", JInt (Z.of_nat r.2)); ("city", JStr r.1.1);
        ("day_of_week", JStr r.1.2)].

Definition weekday_pipeline (rows : list trip) : list json :=
  fmap weekday_doc (weekday_rows rows).

(** Lines 187-206. *)
Definition weekday_stats (fs : artifact_dir) (db : list trip) : outcome json :=
  bind (load_spark_result fs "by_day_of_week.json") (fun spark_data =>
  if truthy spark_data then Return spark_data
  else Return (JArr (weekday_pipeline db))).

(** ** The routes that read the Record Store only *)

(** What FastAPI does before a handler runs: a parameter that violates its
    [Query] constraint is answered with 422 and the handler is not called. *)
Inductive validated (A : Type) :=
| Rejected
| Accepted (a : A).
Arguments Rejected {A}.
Arguments Accepted {A} a.

(** [if p: query[field] = p]: a parameter that is left out or empty puts no
    condition on the field. *)
Definition field_is (field : trip -> string) (p : option string) (t : trip)
    : bool :=
  if param_truthy p then String.eqb (field t) (default "" p) else true.

Definition city_is : option string -> trip -> bool := field_is city.
Definition date_is : option string -> trip -> bool := field_is date.

Section GetTrips.

(** What a cursor with a negative limit [-n] yields: the server sends one
    batch of at most [n] documents; how many fit in it is left open. *)
Variable single_batch : nat -> list trip -> list trip.

(** [cursor.limit(limit)]: 0 means no limit. *)
Definition cursor_limit (limit : Z) (docs : list trip) : list trip :=
  if limit =? 0 then docs
  else if 0 <? limit then take (Z.to_nat limit) docs
  else single_batch (Z.to_nat (- limit)) docs.

(** Lines 164-178; [limit] is [Query(100, le=1000)].  The projection
    [{"_id": 0}] drops the one field a [trip] does not carry. *)
Definition get_trips (db : list trip) (city date : option string)
    (limit : option Z) : validated (list trip) :=
  let limit := default 100 limit in
  if 1000 <? limit then Rejected
  else Accepted (cursor_limit limit
                   (filter (fun t => city_is city t && date_is date t) db)).

End GetTrips.

(** Lines 181-184: [db.trips.distinct("city")]. *)
Definition get_cities (db : list trip) : list string :=
  remove_dups (fmap city db).

(** The five artifact-backed routes, with their query parameters. *)
Inductive request :=
| GetStatsDaily (city : option string)
| GetStatsHourly (city : option string)
| GetStatsCities
| GetTopZones (limit : option Z)
| GetStatsWeekday.

Definition serve (fs : artifact_dir) (db : list trip) (r : request)
    : outcome json :=
  match r with
  | GetStatsDaily city => daily_stats fs db city
  | GetStatsHourly city => hourly_stats fs db city
  | GetStatsCities => cities_stats fs db
  | GetTopZones limit => top_zones_query fs db limit
  | GetStatsWeekday => weekday_stats fs db
  end.

(** The file each route loads. *)
Definition artifact_of (r : request) : string :=
  match r with
  | GetStatsDaily _ => "daily.json"
  | GetStatsHourly _ => "rush_hours.json"
  | GetStatsCities => "avg_distance.json"
  | GetTopZones _ => "top_zones.json"
  | GetStatsWeekday => "by_day_of_week.json"
  end.

(** The directory [fs] with the file [name] put in state [st]. *)
Definition with_file (name : string) (st : file_state) (fs : artifact_dir)
    : artifact_dir :=
  fun n => if String.eqb n name then st else fs n.

End Api.

(** ** The artifact directory after a run of the Spark job *)

(** [analytics.py] overwrites the five files with the aggregates of the
    collection it read ([json.dump], then [json.load] on the API side). *)
Definition spark_output (df : list trip) : Api.artifact_dir :=
  fun filename =>
    if String.eqb filename "daily.json" then
      Api.Parsed (JArr (Analytics.daily_list df))
    else if String.eqb filename "avg_distance.json" then
      Api.Parsed (JArr (Analytics.avg_list df))
    else if String.eqb filename "rush_hours.json" then
      Api.Parsed (JArr (Analytics.rush_list df))
    else if String.eqb filename "top_zones.json" then
      Api.Parsed (JArr (Analytics.zones_list df))
    else if String.eqb filename "by_day_of_week.json" then
      Api.Parsed (JArr (Analytics.day_list df))
    else Api.Missing.

(** A directory with none of the artifacts. *)
Definition no_artifacts : Api.artifact_dir := fun _ => Api.Missing.

(** ** Reading a result back *)

Fixpoint assoc (name : string) (fields : list (string * json)) : option json :=
  match fields with
  | [] => None
  | (k, v) :: rest => if String.eqb k name then Some v else assoc name rest
  end.

(** The [trip_count] of a row, 0 when the row has none. *)
Definition trip_count_of (row : json) : Z :=
  match row with
  | JObj fields =>
      match assoc "trip_count" fields with
      | Some (JInt n) => n
      | _ => 0
      end
  | _ => 0
  end.

Definition total_trip_count (rows : list json) : Z :=
  foldr (fun r acc => trip_count_of r + acc) 0 rows.

(** ** Derived fields *)

(** The persisted [hour], [date] and [day_of_week] of a trip are those of its
    own [timestamp]. *)
Definition consistent (t : trip) : Prop :=
  hour t = Datetime.hour (timestamp t) /\
  date t = Datetime.strftime_Ymd (timestamp t) /\
  day_of_week t = Datetime.strftime_A (timestamp t).

(** ** Row orders *)

(** Keys ascending: dates as strings, hours as integers. *)
Definition date_asc (r1 r2 : string * nat) : Prop := String.leb r1.1 r2.1 = true.
Definition hour_asc (r1 r2 : Z * nat) : Prop := r1.1 <= r2.1.

(** Each row's trip_count is at least the next row's. *)
Definition count_desc {X} (r1 r2 : X * nat) : Prop := (r2.2 <= r1.2)%nat.

(** Each row's avg_distance is at least the next row's. *)
Definition avg_distance_desc (r1 r2 : string * Q * nat) : Prop :=
  (r2.1.2 <= r1.1.2)%Q.

(** Rows with equal trip_count follow the order of their zone names, one
    way or the other. *)
Definition ties_by_zone_asc (r1 r2 : string * nat) : Prop :=
  r1.2 = r2.2 -> String.leb r1.1 r2.1 = true.

Definition ties_by_zone_desc (r1 r2 : string * nat) : Prop :=
  r1.2 = r2.2 -> String.leb r2.1 r1.1 = true.

(** City ascending, then trip_count descending. *)
Definition city_asc_count_desc (r1 r2 : string * string * nat) : Prop :=
  String.leb r1.1.1 r2.1.1 = true /\ (r1.1.1 = r2.1.1 -> (r2.2 <= r1.2)%nat).

(** City descending, then trip_count descending. *)
Definition city_desc_count_desc (r1 r2 : string * string * nat) : Prop :=
  String.leb r2.1.1 r1.1.1 = true /\ (r1.1.1 = r2.1.1 -> (r2.2 <= r1.2)%nat).

(** A result is a list of rows that all have the schema [sch]. *)
Definition has_schema (sch : gmap string jtype) (res : outcome json) : Prop :=
  exists rows, res = Return (JArr rows) /\ Forall (fun r => schema_of r = sch) rows.

Definition daily_schema : gmap string jtype :=
  {[ "date" := TStr; "trip_count" := TInt ]}.
Definition hourly_schema : gmap string jtype :=
  {[ "hour" := TInt; "trip_count" := TInt ]}.
Definition cities_schema : gmap string jtype :=
  {[ "city" := TStr; "avg_distance" := TFloat; "trip_count" := TInt ]}.
Definition top_zones_schema : gmap string jtype :=
  {[ "zone" := TStr; "trip_count" := TInt ]}.
Definition weekday_schema : gmap string jtype :=
  {[ "city" := TStr; "day_of_week" := TStr; "trip_count" := TInt ]}.

(** ** Strict orders and requests without a filter *)

(** Keys strictly ascending: one row per key. *)
Definition date_strictly_asc (r1 r2 : string * nat) : Prop :=
  String.leb r1.1 r2.1 = true /\ r1.1 <> r2.1.

Definition hour_strictly_asc (r1 r2 : Z * nat) : Prop := r1.1 < r2.1.

(** The request carries no city filter the handler would act on. *)
Definition unfiltered (r : Api.request) : bool :=
  match r with
  | Api.GetStatsDaily c | Api.GetStatsHourly c => negb (param_truthy c)
  | _ => true
  end.

(** ** Calendar order *)

(** The order of two timestamps by calendar day: year, then month, then
    day. *)
Definition date_compare (d1 d2 : Datetime.datetime) : comparison :=
  match Datetime.year d1 ?= Datetime.year d2 with
  | Eq => match Datetime.month d1 ?= Datetime.month d2 with
          | Eq => Datetime.day d1 ?= Datetime.day d2
          | r => r
          end
  | r => r
  end.

(** The trips of the first row fall on an earlier day than those of the
    second. *)
Definition earlier_day (db : list trip) (r1 r2 : string * nat) : Prop :=
  forall t1 t2, t1 ∈ db -> t2 ∈ db -> date t1 = r1.1 -> date t2 = r2.1 ->
    date_compare (timestamp t1) (timestamp t2) = Lt.

(** ** Conditions on a trip *)

(** The trip meets the conditions of a [/trips] request: each parameter that
    is given and not empty equals the field of the trip. *)
Definition meets (qc qd : option string) (t : trip) : Prop :=
  (forall c, qc = Some c -> c <> "" -> city t = c) /\
  (forall d, qd = Some d -> d <> "" -> date t = d).

Definition field_condition_dec (field : trip -> string) (p : option string)
    (t : trip) : Decision (forall v, p = Some v -> v <> "" -> field t = v).
Proof.
  destruct p as [v|].
  - destruct (decide (v = "")) as [Hv|Hv].
    + left. intros v' [= <-] Hne. by destruct Hne.
    + destruct (decide (field t = v)) as [Hf|Hf].
      * left. by intros v' [= <-] _.
      * right. intros H. apply Hf. by apply H.
  - left. by intros v [=].
Defined.

#[global] Instance meets_dec (qc qd : option string) (t : trip) :
  Decision (meets qc qd t).
Proof.
  unfold meets.
  destruct (field_condition_dec city qc t) as [Hc|Hc],
           (field_condition_dec date qd t) as [Hd|Hd];
    [by left|right; by intros [_ ?]|right; by intros [? _]|right; by intros [? _]].
Defined.

(** ** Concrete inputs *)

(** Tuesday 3 November 2026, 08:30. *)
Definition ts0 : Datetime.datetime :=
  {| Datetime.year := 2026; Datetime.month := 11; Datetime.day := 3;
     Datetime.hour := 8; Datetime.minute := 30; Datetime.second := 0;
     Datetime.microsecond := 0 |}.

Definition sample0 (c z : string) (km : Q) : Generator.sample :=
  {| Generator.s_ts := ts0; Generator.s_trip_id := "t"; Generator.s_user_id := "u";
     Generator.s_city := c; Generator.s_zone_start := z;
     Generator.s_zone_end := "Zone E"; Generator.s_distance_km := km;
     Generator.s_price_eur := 5 |}.

(** One trip in Paris of 10 km, two in Lyon of 1 km each. *)
Definition db_cities : list trip :=
  Generator.mk_trip <$>
    [sample0 "Paris" "Zone A" 10; sample0 "Lyon" "Zone A" 1; sample0 "Lyon" "Zone A" 1].

(** One trip from each of three zones, scanned in the order B, A, C. *)
Definition db_zones : list trip :=
  Generator.mk_trip <$>
    [sample0 "Paris" "Zone B" 2; sample0 "Paris" "Zone A" 2; sample0 "Paris" "Zone C" 2].

(** One trip in Lyon and one in Paris. *)
Definition db_two_cities : list trip :=
  Generator.mk_trip <$> [sample0 "Lyon" "Zone A" 2; sample0 "Paris" "Zone A" 2].

(** Every artifact file is there and is not JSON. *)
Definition all_malformed : Api.artifact_dir := fun _ => Api.Malformed.

(** * Facts about the engine model *)

Section SortFacts.
Context {A : Type} (le : A -> A -> bool).
Hypothesis le_total : forall x y, le x y = false -> le y x = true.

Lemma insert_by_perm x l : insert_by le x l ≡ₚ x :: l.
Proof.
  induction l as [|y l IH]; simpl; [done|].
  destruct (le x y); [done|]. rewrite IH. apply Permutation_swap.
Qed.

Lemma sort_by_perm l : sort_by le l ≡ₚ l.
Proof.
  induction l as [|x l IH]; simpl; [done|].
  unfold sort_by in *. simpl. rewrite insert_by_perm. by rewrite IH.
Qed.

Lemma elem_of_sort_by x l : x ∈ sort_by le l <-> x ∈ l.
Proof. by rewrite sort_by_perm. Qed.

Lemma insert_by_sorted x l :
  Sorted (fun a b => le a b = true) l ->
  Sorted (fun a b => le a b = true) (insert_by le x l).
Proof.
  induction 1 as [|y l Hs IH Hd]; simpl.
  - repeat constructor.
  - destruct (le x y) eqn:Hxy.
    + constructor; [by constructor|by constructor].
    + constructor; [done|].
      destruct Hd as [|z l Hyz]; simpl.
      * constructor. by apply le_total.
      * destruct (le x z); constructor; [by apply le_total|done].
Qed.

Lemma sort_by_sorted l : Sorted (fun a b => le a b = true) (sort_by le l).
Proof.
  induction l as [|x l IH]; [constructor|].
  unfold sort_by in *. simpl. by apply insert_by_sorted.
Qed.
End SortFacts.

Lemma Sorted_weaken {A} (R S : A -> A -> Prop) l :
  (forall x y, R x y -> S x y) -> Sorted R l -> Sorted S l.
Proof.
  intros HRS. induction 1 as [|x l Hs IH Hd]; constructor; [done|].
  destruct Hd; constructor; auto.
Qed.

Lemma Sorted_take_prefix {A} (R : A -> A -> Prop) n l :
  Sorted R l -> Sorted R (take n l).
Proof.
  intros Hs. revert n. induction Hs as [|x l Hs IH Hd]; intros [|n]; simpl;
    try constructor; [done|].
  destruct Hd; destruct n; simpl; constructor; done.
Qed.

Lemma asc_total {A K} (le : K -> K -> bool) (f : A -> K) :
  (forall a b, le a b = false -> le b a = true) ->
  forall x y, asc le f x y = false -> asc le f y x = true.
Proof. unfold asc. auto. Qed.

Lemma desc_total {A K} (le : K -> K -> bool) (f : A -> K) :
  (forall a b, le a b = false -> le b a = true) ->
  forall x y, desc le f x y = false -> desc le f y x = true.
Proof. unfold desc. auto. Qed.

Lemma then_by_total {A} (le1 le2 : A -> A -> bool) :
  (forall a b, le1 a b = false -> le1 b a = true) ->
  (forall a b, le2 a b = false -> le2 b a = true) ->
  forall x y, then_by le1 le2 x y = false -> then_by le1 le2 y x = true.
Proof.
  intros H1 H2 x y. unfold then_by.
  destruct (le1 x y) eqn:Hxy, (le1 y x) eqn:Hyx; auto; try discriminate.
  apply H1 in Hxy. congruence.
Qed.

Lemma string_leb_total a b : String.leb a b = false -> String.leb b a = true.
Proof. destruct (String.leb_total a b); congruence. Qed.

Lemma nat_leb_total a b : Nat.leb a b = false -> Nat.leb b a = true.
Proof. intros H%Nat.leb_gt. apply Nat.leb_le. lia. Qed.

Lemma Z_leb_total a b : Z.leb a b = false -> Z.leb b a = true.
Proof. intros H%Z.leb_gt. apply Z.leb_le. lia. Qed.

Lemma Qle_bool_total a b : Qle_bool a b = false -> Qle_bool b a = true.
Proof.
  intros H. apply Qle_bool_iff. destruct (Qlt_le_dec b a) as [Hlt|Hle].
  - by apply Qlt_le_weak.
  - apply Qle_bool_iff in Hle. congruence.
Qed.

Section GroupFacts.
Context {A K : Type} `{EqDecision K} (key : A -> K).

Lemma group_by_keys rows :
  (group_by key rows).*1 = remove_dups (key <$> rows).
Proof.
  unfold group_by. rewrite <- list_fmap_compose.
  induction (remove_dups (key <$> rows)) as [|k ks IH]; [done|].
  rewrite fmap_cons. csimpl. by rewrite IH.
Qed.

Lemma group_by_nodup rows : NoDup (group_by key rows).*1.
Proof. rewrite group_by_keys. apply NoDup_remove_dups. Qed.

Lemma elem_of_group_by rows k xs :
  (k, xs) ∈ group_by key rows <->
  k ∈ key <$> rows /\ xs = filter (fun x => key x = k) rows.
Proof.
  unfold group_by. rewrite list_elem_of_fmap. split.
  - intros (k' & [= -> ->] & Hk). split; [|done].
    by rewrite elem_of_remove_dups in Hk.
  - intros [Hk ->]. exists k. by rewrite elem_of_remove_dups.
Qed.

Lemma indicator_sum (k0 : K) ks :
  NoDup ks -> k0 ∈ ks ->
  sum_list ((fun k => if decide (k0 = k) then 1%nat else 0%nat) <$> ks) = 1%nat.
Proof.
  induction 1 as [|k ks Hk Hnd IH]; intros Hin; [by apply elem_of_nil in Hin|].
  csimpl. destruct (decide (k0 = k)) as [->|Hne].
  - assert (sum_list ((fun k' => if decide (k = k') then 1%nat else 0%nat) <$> ks) = 0%nat) as ->; [|done].
    clear IH Hin Hnd. induction ks as [|k' ks IH]; [done|]. csimpl.
    apply not_elem_of_cons in Hk as [Hne Hk].
    destruct (decide (k = k')); [done|]. by apply IH.
  - apply elem_of_cons in Hin as [?|Hin]; [done|]. by apply IH.
Qed.

Lemma filter_sizes rows ks :
  NoDup ks -> (forall x, x ∈ rows -> key x ∈ ks) ->
  sum_list ((fun k => length (filter (fun x => key x = k) rows)) <$> ks)
  = length rows.
Proof.
  intros Hnd. induction rows as [|x rows IH]; intros Hin.
  - clear. induction ks as [|k ks IHk]; [done|]. exact IHk.
  - transitivity
      (sum_list ((fun k => if decide (key x = k) then 1%nat else 0%nat) <$> ks)
       + sum_list ((fun k => length (filter (fun y => key y = k) rows)) <$> ks))%nat.
    + clear. induction ks as [|k ks IHk]; [done|]. csimpl.
      rewrite IHk, filter_cons. destruct (decide (key x = k)); simpl; lia.
    + rewrite indicator_sum by (auto; apply Hin; left).
      rewrite IH by (intros; apply Hin; by right). done.
Qed.

Lemma group_by_sizes rows :
  sum_list ((fun g => length g.2) <$> group_by key rows) = length rows.
Proof.
  unfold group_by. rewrite <- list_fmap_compose. apply filter_sizes.
  - apply NoDup_remove_dups.
  - intros x Hx. apply elem_of_remove_dups, list_elem_of_fmap. eauto.
Qed.
End GroupFacts.

(** * Facts about the ingestion loop *)

Section LoopFacts.
Import Generator.
Variable B : Z.

Lemma body_batch st s :
  batch_docs (loop_body B st s)
  = if full B st s then [] else batch_docs st ++ [mk_trip s].
Proof. unfold loop_body, full. simpl. by destruct (_ =? _). Qed.

Lemma body_collection st s :
  collection (st_stores (loop_body B st s))
  = if full B st s
    then collection (st_stores st) ++ batch_docs st ++ [mk_trip s]
    else collection (st_stores st).
Proof. unfold loop_body, full. simpl. by destruct (_ =? _). Qed.

Lemma body_bulk st s :
  bulk_writes (loop_body B st s)
  = if full B st s
    then bulk_writes st ++ [batch_docs st ++ [mk_trip s]]
    else bulk_writes st.
Proof. unfold loop_body, full. simpl. by destruct (_ =? _). Qed.

Lemma body_executed st s :
  executed (loop_body B st s) = executed st ++ increments s.
Proof.
  unfold loop_body, increments. simpl. destruct (_ =? _); simpl;
    by rewrite <- app_assoc.
Qed.

Lemma body_by_zone st s :
  trips_by_zone (st_stores (loop_body B st s))
  = counter_incr (s_city s, s_zone_start s) (trips_by_zone (st_stores st)).
Proof. unfold loop_body. simpl. by destruct (_ =? _). Qed.

Lemma body_by_hour st s :
  trips_by_hour (st_stores (loop_body B st s))
  = counter_incr (s_city s, Datetime.strftime_Ymd (s_ts s), Datetime.hour (s_ts s))
                 (trips_by_hour (st_stores st)).
Proof. unfold loop_body. simpl. by destruct (_ =? _). Qed.

(** Everything appended so far is either in the collection or still in the
    batch, in order. *)
Lemma loop_collection ss st :
  let st' := fold_left (loop_body B) ss st in
  collection (st_stores st') ++ batch_docs st'
  = collection (st_stores st) ++ batch_docs st ++ (mk_trip <$> ss).
Proof.
  revert st. induction ss as [|s ss IH]; intros st; simpl.
  - by rewrite app_nil_r.
  - rewrite IH, body_collection, body_batch.
    destruct (full B st s); rewrite <- ?app_assoc; simpl; by rewrite ?app_nil_r.
Qed.

(** The collection is the concatenation of the bulk writes. *)
Lemma loop_bulk_concat ss st :
  collection (st_stores st) = concat (bulk_writes st) ->
  let st' := fold_left (loop_body B) ss st in
  collection (st_stores st') = concat (bulk_writes st').
Proof.
  revert st. induction ss as [|s ss IH]; intros st Hst; simpl; [done|].
  apply IH. rewrite body_collection, body_bulk.
  destruct (full B st s); [|done].
  by rewrite concat_app, Hst; simpl; rewrite app_nil_r.
Qed.

(** Every bulk write of the loop has exactly [B] documents, and the batch
    stays below [B] when [B] is positive. *)
Lemma loop_bulk_sizes ss st :
  Forall (fun w => Z.of_nat (length w) = B) (bulk_writes st) ->
  (0 < B -> Z.of_nat (length (batch_docs st)) < B) ->
  let st' := fold_left (loop_body B) ss st in
  Forall (fun w => Z.of_nat (length w) = B) (bulk_writes st') /\
  (0 < B -> Z.of_nat (length (batch_docs st')) < B).
Proof.
  revert st. induction ss as [|s ss IH]; intros st Hw Hb; simpl; [done|].
  apply IH.
  - rewrite body_bulk. destruct (full B st s) eqn:Hf; [|done].
    apply Forall_app. split; [done|]. constructor; [|done].
    unfold full in Hf. by apply Z.eqb_eq in Hf.
  - intros HB. rewrite body_batch. destruct (full B st s) eqn:Hf; [simpl; lia|].
    unfold full in Hf. apply Z.eqb_neq in Hf. specialize (Hb HB).
    rewrite length_app in *. simpl in *. lia.
Qed.

Lemma loop_bulk_nonempty ss st :
  Forall (fun w => w <> []) (bulk_writes st) ->
  Forall (fun w => w <> []) (bulk_writes (fold_left (loop_body B) ss st)).
Proof.
  revert st. induction ss as [|s ss IH]; intros st Hw; simpl; [done|].
  apply IH. rewrite body_bulk. destruct (full B st s); [|done].
  apply Forall_app. split; [done|]. constructor; [|done].
  by destruct (batch_docs st).
Qed.

Lemma loop_executed ss st :
  executed (fold_left (loop_body B) ss st)
  = executed st ++ (ss ≫= increments).
Proof.
  revert st. induction ss as [|s ss IH]; intros st; simpl.
  - by rewrite app_nil_r.
  - by rewrite IH, body_executed, <- app_assoc.
Qed.

Lemma counter_read_incr `{Countable K} (k k' : K) (m : gmap K nat) :
  counter_read k (counter_incr k' m)
  = (counter_read k m + if decide (k' = k) then 1 else 0)%nat.
Proof.
  unfold counter_read, counter_incr. destruct (decide (k' = k)) as [->|Hne].
  - rewrite lookup_insert_eq. simpl. lia.
  - rewrite lookup_insert_ne by done. lia.
Qed.

(** A zone counter grows by the number of samples of its bucket. *)
Lemma loop_by_zone ss st c z :
  counter_read (c, z) (trips_by_zone (st_stores (fold_left (loop_body B) ss st)))
  = (counter_read (c, z) (trips_by_zone (st_stores st))
     + length (filter (fun s => (s_city s, s_zone_start s) = (c, z)) ss))%nat.
Proof.
  revert st. induction ss as [|s ss IH]; intros st; simpl; [lia|].
  rewrite IH, body_by_zone, counter_read_incr, filter_cons.
  destruct (decide (_ = _)); simpl; lia.
Qed.

Lemma loop_by_hour ss st c d h :
  counter_read (c, d, h) (trips_by_hour (st_stores (fold_left (loop_body B) ss st)))
  = (counter_read (c, d, h) (trips_by_hour (st_stores st))
     + length (filter (fun s => (s_city s, Datetime.strftime_Ymd (s_ts s),
                                 Datetime.hour (s_ts s)) = (c, d, h)) ss))%nat.
Proof.
  revert st. induction ss as [|s ss IH]; intros st; simpl; [lia|].
  rewrite IH, body_by_hour, counter_read_incr, filter_cons.
  destruct (decide (_ = _)); simpl; lia.
Qed.

(** The final flush empties what is left of the batch into the collection. *)
Lemma flush_collection st :
  collection (st_stores (flush_rest st))
  = collection (st_stores st) ++ batch_docs st.
Proof.
  unfold flush_rest. destruct (batch_docs st); simpl; by rewrite ?app_nil_r.
Qed.

Lemma flush_bulk st :
  bulk_writes (flush_rest st)
  = match batch_docs st with
    | [] => bulk_writes st
    | _ => bulk_writes st ++ [batch_docs st]
    end.
Proof. unfold flush_rest. by destruct (batch_docs st). Qed.

Lemma flush_executed st : executed (flush_rest st) = executed st.
Proof. unfold flush_rest. by destruct (batch_docs st). Qed.

Lemma flush_by_zone st :
  trips_by_zone (st_stores (flush_rest st)) = trips_by_zone (st_stores st).
Proof. unfold flush_rest. by destruct (batch_docs st). Qed.

Lemma flush_by_hour st :
  trips_by_hour (st_stores (flush_rest st)) = trips_by_hour (st_stores st).
Proof. unfold flush_rest. by destruct (batch_docs st). Qed.

(** The Record Store after a run: the generated trips, in order. *)
Lemma run_collection draw N s0 :
  collection (st_stores (run draw N B s0)) = mk_trip <$> samples draw N.
Proof.
  unfold run. rewrite flush_collection.
  by rewrite (loop_collection (samples draw N) (reset s0)).
Qed.

Lemma samples_length draw N : length (samples draw N) = Z.to_nat N.
Proof. unfold samples. by rewrite length_fmap, length_seq. Qed.
End LoopFacts.

(** * Facts about the aggregates *)

Section CountFacts.
Context `{EqDecision K} (key : trip -> K).

Lemma elem_of_group_sum1 rows k n :
  (k, n) ∈ Api.group_sum1 key rows <->
  k ∈ key <$> rows /\ n = length (filter (fun t => key t = k) rows).
Proof.
  unfold Api.group_sum1. rewrite list_elem_of_fmap. split.
  - intros ([k' xs] & [= -> ->] & Hin). apply elem_of_group_by in Hin as [? ->].
    done.
  - intros [Hk ->]. exists (k, filter (fun t => key t = k) rows).
    split; [done|]. by apply elem_of_group_by.
Qed.

Lemma elem_of_fmap_filter rows k :
  k ∈ key <$> rows <-> (0 < length (filter (fun t => key t = k) rows))%nat.
Proof.
  induction rows as [|x rows IH].
  - rewrite fmap_nil, elem_of_nil. simpl. lia.
  - rewrite fmap_cons, elem_of_cons, filter_cons, IH.
    destruct (decide (key x = k)); simpl; split; try lia; auto.
    intros [?|?]; [congruence|lia].
Qed.

(** One row per key that occurs, with the number of the trips that carry
    it. *)
Lemma group_sum1_spec rows k n :
  (k, n) ∈ Api.group_sum1 key rows <->
  (0 < n)%nat /\ n = length (filter (fun t => key t = k) rows).
Proof.
  rewrite elem_of_group_sum1, elem_of_fmap_filter. split.
  - intros [Hpos ->]. done.
  - intros [Hpos ->]. done.
Qed.

Lemma group_sum1_total rows :
  sum_list (Api.group_sum1 key rows).*2 = length rows.
Proof.
  unfold Api.group_sum1. rewrite <- list_fmap_compose.
  apply (group_by_sizes key rows).
Qed.

Lemma group_sum1_keys rows : NoDup (Api.group_sum1 key rows).*1.
Proof.
  unfold Api.group_sum1. rewrite <- list_fmap_compose.
  apply (group_by_nodup key rows).
Qed.
End CountFacts.

Lemma filter_ext_Forall {A} (P Q : A -> Prop)
    `{!forall x, Decision (P x)} `{!forall x, Decision (Q x)} (l : list A) :
  Forall (fun x => P x <-> Q x) l -> filter P l = filter Q l.
Proof.
  induction 1 as [|x l Hx Hl IH]; [done|].
  rewrite !filter_cons, IH.
  destruct (decide (P x)), (decide (Q x)); tauto.
Qed.

(** The daily and hourly rows are in ascending order of their key, on both
    paths. *)
Lemma daily_sorted df :
  Sorted date_asc (Analytics.daily df) /\ Sorted date_asc (Api.daily_rows df).
Proof.
  split; apply (sort_by_sorted (asc String.leb fst)), asc_total,
    string_leb_total.
Qed.

Lemma rush_sorted df :
  Sorted hour_asc (Analytics.rush df) /\ Sorted hour_asc (Api.hourly_rows df).
Proof.
  split;
    (eapply Sorted_weaken;
       [|apply (sort_by_sorted (asc Z.leb fst)), asc_total, Z_leb_total]);
    intros x y H; unfold asc in H; by apply Z.leb_le in H.
Qed.

Lemma total_trip_count_daily rows :
  total_trip_count (Analytics.daily_row <$> rows) = Z.of_nat (sum_list rows.*2).
Proof.
  induction rows as [|r rows IH]; [done|]. csimpl. rewrite IH.
  unfold id. lia.
Qed.

Lemma daily_total df : sum_list (Analytics.daily df).*2 = length df.
Proof.
  unfold Analytics.daily. rewrite sort_by_perm.
  apply (group_sum1_total date df).
Qed.

Lemma mk_trip_consistent s : consistent (Generator.mk_trip s).
Proof. by repeat split. Qed.

Lemma samples_Forall (P : Generator.sample -> Prop) draw N :
  (forall i, (i < Z.to_nat N)%nat -> P (draw i)) ->
  Forall P (Generator.samples draw N).
Proof.
  intros H. unfold Generator.samples. apply Forall_fmap, Forall_seq.
  intros i Hi. apply H. lia.
Qed.

(** * The claims about ingestion *)

(** C7: for every target count N and batch size B the run leaves exactly the
    N generated trips in the Record Store; the bulk writes, concatenated, are
    those trips, every write but the last has B documents, no write is empty
    and, for a positive B, none exceeds B; the trip_count values of the daily
    artifact computed from that store sum to N. *)
Theorem C7_ingest_writes_all_trips (draw : nat -> Generator.sample)
    (N B : Z) (s0 : stores) :
  let st := Generator.run draw N B s0 in
  let db := collection (Generator.st_stores st) in
  db = Generator.mk_trip <$> Generator.samples draw N /\
  Z.of_nat (length db) = Z.max 0 N /\
  concat (Generator.bulk_writes st) = db /\
  Forall (fun w => Z.of_nat (length w) = B) (removelast (Generator.bulk_writes st)) /\
  Forall (fun w => w <> [] /\ (0 < B -> Z.of_nat (length w) <= B))
         (Generator.bulk_writes st) /\
  total_trip_count (Analytics.daily_list db) = Z.max 0 N.
Proof.
  intros st db.
  assert (Hdb : db = Generator.mk_trip <$> Generator.samples draw N)
    by apply run_collection.
  assert (Hlen : Z.of_nat (length db) = Z.max 0 N).
  { rewrite Hdb, length_fmap, samples_length. lia. }
  set (st1 := fold_left (Generator.loop_body B) (Generator.samples draw N)
                        (Generator.reset s0)).
  assert (Hconcat : collection (Generator.st_stores st1)
                    = concat (Generator.bulk_writes st1))
    by (by apply loop_bulk_concat).
  destruct (loop_bulk_sizes B (Generator.samples draw N) (Generator.reset s0))
    as [Hsz Hb]; [constructor|simpl; lia|]. fold st1 in Hsz, Hb.
  assert (Hst : st = Generator.flush_rest st1) by done.
  repeat split; try done.
  - rewrite Hst, flush_bulk. subst db. rewrite Hst, flush_collection, Hconcat.
    destruct (Generator.batch_docs st1); [by rewrite app_nil_r|].
    by rewrite concat_app; simpl; rewrite app_nil_r.
  - rewrite Hst, flush_bulk. destruct (Generator.batch_docs st1).
    + clear -Hsz. induction Hsz as [|w [|w' ws] Hw Hws IH]; simpl;
        constructor; auto.
    + by rewrite removelast_last.
  - rewrite Hst, flush_bulk.
    assert (Hall : Forall (fun w => w <> [] /\ (0 < B -> Z.of_nat (length w) <= B))
                          (Generator.bulk_writes st1)).
    { pose proof (loop_bulk_nonempty B (Generator.samples draw N)
                    (Generator.reset s0) (Forall_nil_2 _)) as Hne.
      fold st1 in Hne. apply Forall_forall. intros w Hw.
      rewrite Forall_forall in Hne, Hsz.
      split; [by apply Hne|]. intros _. rewrite (Hsz w Hw). lia. }
    destruct (Generator.batch_docs st1) as [|t b] eqn:Hbatch; [done|].
    apply Forall_app. split; [done|]. constructor; [|done].
    split; [done|]. intros HB. specialize (Hb HB). lia.
  - unfold Analytics.daily_list. by rewrite total_trip_count_daily, daily_total.
Qed.

(** C8: every trip the run leaves in the Record Store carries the hour, the
    calendar-day string and the weekday name of its own timestamp, the hour
    lying in 0..23; and each bucket of the daily, rush-hour and weekday
    artifacts computed from that store counts exactly the stored trips whose
    timestamp falls in it. *)
Theorem C8_derived_fields_follow_timestamp (draw : nat -> Generator.sample)
    (N B : Z) (s0 : stores) :
  (forall i, (i < Z.to_nat N)%nat -> Datetime.valid (Generator.s_ts (draw i))) ->
  let db := collection (Generator.st_stores (Generator.run draw N B s0)) in
  Forall (fun t => consistent t /\ 0 <= hour t <= 23) db /\
  (forall d n, (d, n) ∈ Analytics.daily db ->
     n = length (filter (fun t => Datetime.strftime_Ymd (timestamp t) = d) db)) /\
  (forall h n, (h, n) ∈ Analytics.rush db ->
     0 <= h <= 23 /\
     n = length (filter (fun t => Datetime.hour (timestamp t) = h) db)) /\
  (forall c w n, (c, w, n) ∈ Analytics.by_day db ->
     n = length (filter (fun t => (city t, Datetime.strftime_A (timestamp t)) = (c, w)) db)).
Proof.
  intros Hvalid db.
  assert (Hdb : Forall (fun t => consistent t /\ 0 <= hour t <= 23) db).
  { unfold db. rewrite run_collection. apply Forall_fmap.
    apply samples_Forall. intros i Hi. split; [apply mk_trip_consistent|].
    destruct (Hvalid i Hi) as (_ & _ & _ & Hh & _). exact Hh. }
  split; [done|]. split; [|split].
  - intros d n Hin. apply elem_of_sort_by, elem_of_group_sum1 in Hin as [_ ->].
    f_equal. apply filter_ext_Forall. eapply Forall_impl; [exact Hdb|].
    intros t [(_ & -> & _) _]. done.
  - intros h n Hin. apply elem_of_sort_by, elem_of_group_sum1 in Hin as [Hh ->].
    split.
    + apply list_elem_of_fmap in Hh as (t & -> & Ht).
      rewrite Forall_forall in Hdb. apply (Hdb t Ht).
    + f_equal. apply filter_ext_Forall. eapply Forall_impl; [exact Hdb|].
      intros t [(-> & _ & _) _]. done.
  - intros c w n Hin.
    apply elem_of_sort_by in Hin.
    apply (elem_of_group_sum1 (fun t => (city t, day_of_week t))) in Hin as [_ ->].
    f_equal. apply filter_ext_Forall. eapply Forall_impl; [exact Hdb|].
    intros t [(_ & _ & ->) _]. done.
Qed.

(** A run of three trips drawn at [ts0], in batches of two. *)
Lemma C8_derived_fields_witness :
  let db := collection (Generator.st_stores
              (Generator.run (fun _ => sample0 "Paris" "Zone A" 2) 3 2
                 {| collection := []; trips_by_hour := ∅; trips_by_zone := ∅ |})) in
  Forall (fun t => consistent t /\ 0 <= hour t <= 23) db /\
  (forall d n, (d, n) ∈ Analytics.daily db ->
     n = length (filter (fun t => Datetime.strftime_Ymd (timestamp t) = d) db)) /\
  (forall h n, (h, n) ∈ Analytics.rush db ->
     0 <= h <= 23 /\
     n = length (filter (fun t => Datetime.hour (timestamp t) = h) db)) /\
  (forall c w n, (c, w, n) ∈ Analytics.by_day db ->
     n = length (filter (fun t => (city t, Datetime.strftime_A (timestamp t)) = (c, w)) db)).
Proof.
  apply (C8_derived_fields_follow_timestamp (fun _ => sample0 "Paris" "Zone A" 2) 3 2).
  intros i _. vm_compute. repeat split; discriminate.
Defined.

(** C9: a run executes, after the two TRUNCATEs, exactly the two increments
    of each trip, in order; every zone bucket ends at the number of trips of
    its (city, zone_start), every hour bucket at the number of trips of its
    (city, date, hour); so when all the trips of the run have city X and
    zone_start Y, the (X, Y) bucket holds the number of trips. *)
Theorem C9_counter_buckets (draw : nat -> Generator.sample) (N B : Z)
    (s0 : stores) (X Y : string) :
  (forall i, (i < Z.to_nat N)%nat ->
     Generator.s_city (draw i) = X /\ Generator.s_zone_start (draw i) = Y) ->
  let st := Generator.run draw N B s0 in
  let ss := Generator.samples draw N in
  Generator.executed st
    = [truncate_by_hour; truncate_by_zone] ++ (ss ≫= Generator.increments) /\
  (forall s, length (Generator.increments s) = 2%nat) /\
  (forall c z, counter_read (c, z) (trips_by_zone (Generator.st_stores st))
     = length (filter (fun s => (Generator.s_city s, Generator.s_zone_start s) = (c, z)) ss)) /\
  (forall c d h, counter_read (c, d, h) (trips_by_hour (Generator.st_stores st))
     = length (filter (fun s => (Generator.s_city s,
                                 Datetime.strftime_Ymd (Generator.s_ts s),
                                 Datetime.hour (Generator.s_ts s)) = (c, d, h)) ss)) /\
  Z.of_nat (counter_read (X, Y) (trips_by_zone (Generator.st_stores st))) = Z.max 0 N.
Proof.
  intros HXY st ss.
  assert (Hzone : forall c z,
    counter_read (c, z) (trips_by_zone (Generator.st_stores st))
    = length (filter (fun s => (Generator.s_city s, Generator.s_zone_start s) = (c, z)) ss)).
  { intros c z. unfold st, Generator.run. rewrite flush_by_zone, loop_by_zone.
    simpl. unfold counter_read. by rewrite lookup_empty. }
  split; [|split; [done|split; [done|split]]].
  - unfold st, Generator.run. by rewrite flush_executed, loop_executed.
  - intros c d h. unfold st, Generator.run. rewrite flush_by_hour, loop_by_hour.
    simpl. unfold counter_read. by rewrite lookup_empty.
  - rewrite Hzone.
    assert (Hall : Forall (fun s => (Generator.s_city s, Generator.s_zone_start s) = (X, Y)) ss).
    { apply samples_Forall. intros i Hi. by destruct (HXY i Hi) as [-> ->]. }
    assert (filter (fun s => (Generator.s_city s, Generator.s_zone_start s) = (X, Y)) ss = ss) as ->.
    { clear -Hall. induction Hall as [|s ss Hs Hss IH]; [done|].
      by rewrite filter_cons_True, IH. }
    unfold ss. rewrite samples_length. lia.
Qed.

(** Four trips from Zone B of Lyon, over counters that held other values. *)
Lemma C9_counter_buckets_witness :
  Z.of_nat (counter_read ("Lyon", "Zone B")
    (trips_by_zone (Generator.st_stores
       (Generator.run (fun _ => sample0 "Lyon" "Zone B" 2) 4 3
          {| collection := []; trips_by_hour := ∅;
             trips_by_zone := {[ ("Lyon", "Zone B") := 7%nat ]} |})))) = 4.
Proof.
  pose proof (C9_counter_buckets (fun _ => sample0 "Lyon" "Zone B" 2) 4 3
    {| collection := []; trips_by_hour := ∅;
       trips_by_zone := {[ ("Lyon", "Zone B") := 7%nat ]} |} "Lyon" "Zone B") as H.
  simpl in H. apply H. intros i _. split; reflexivity.
Defined.

(** * The claims about the query resolver *)

Lemma param_truthy_Some c : c <> "" -> param_truthy (Some c) = true.
Proof.
  intros Hc. simpl. destruct (String.eqb c "") eqn:E; [|done].
  by apply String.eqb_eq in E.
Qed.

(** What the live, filtered pipelines of the daily and hourly families
    compute: one row per key that occurs among the trips of the city, with
    the number of those trips. *)
Lemma daily_rows_filtered db c d n :
  (d, n) ∈ Api.daily_rows (Api.match_city c db) <->
  (0 < n)%nat /\ n = length (filter (fun t => date t = d /\ city t = c) db).
Proof.
  unfold Api.daily_rows, Api.match_city.
  by rewrite elem_of_sort_by, group_sum1_spec, list_filter_filter.
Qed.

Lemma hourly_rows_filtered db c h n :
  (h, n) ∈ Api.hourly_rows (Api.match_city c db) <->
  (0 < n)%nat /\ n = length (filter (fun t => hour t = h /\ city t = c) db).
Proof.
  unfold Api.hourly_rows, Api.match_city.
  by rewrite elem_of_sort_by, group_sum1_spec, list_filter_filter.
Qed.

(** The daily and hourly families wherever the artifact file is missing or
    holds a JSON value, whatever the Record Store holds: a loaded value that
    is not empty is returned as it is when the request carries no city
    filter; when the request carries a city filter, the result is the live
    aggregate of the trips of that city (one row per date, or hour, with the
    number of the trips of the city that carry it), whatever the artifact
    holds. *)
Theorem daily_hourly_resolution (fs : Api.artifact_dir) (db : list trip)
    (no_city : option string) (c : string) :
  param_truthy no_city = false ->
  c <> "" ->
  (forall vd, Api.load_spark_result fs "daily.json" = Return vd ->
     (truthy vd = true -> Api.daily_stats fs db no_city = Return vd) /\
     Api.daily_stats fs db (Some c)
       = Return (JArr (Api.daily_doc <$> Api.daily_rows (Api.match_city c db)))) /\
  (forall d n, (d, n) ∈ Api.daily_rows (Api.match_city c db) <->
     (0 < n)%nat /\ n = length (filter (fun t => date t = d /\ city t = c) db)) /\
  (forall vh, Api.load_spark_result fs "rush_hours.json" = Return vh ->
     (truthy vh = true -> Api.hourly_stats fs db no_city = Return vh) /\
     Api.hourly_stats fs db (Some c)
       = Return (JArr (Api.hourly_doc <$> Api.hourly_rows (Api.match_city c db)))) /\
  (forall h n, (h, n) ∈ Api.hourly_rows (Api.match_city c db) <->
     (0 < n)%nat /\ n = length (filter (fun t => hour t = h /\ city t = c) db)).
Proof.
  intros Hcity Hc. apply param_truthy_Some in Hc.
  split; [|split; [|split]].
  - intros vd Hd. unfold Api.daily_stats, Api.optional_match.
    rewrite Hd, Hcity, Hc. simpl. split; [by intros ->|by destruct (truthy vd)].
  - apply daily_rows_filtered.
  - intros vh Hh. unfold Api.hourly_stats, Api.optional_match.
    rewrite Hh, Hcity, Hc. simpl. split; [by intros ->|by destruct (truthy vh)].
  - apply hourly_rows_filtered.
Qed.

(** The daily artifact of [db_cities] is there, the hourly one is not; a
    request without a filter and a request for Lyon. *)
Lemma daily_hourly_resolution_witness :
  Api.daily_stats
    (Api.with_file "rush_hours.json" Api.Missing (spark_output db_cities))
    db_cities None
    = Return (JArr (Analytics.daily_list db_cities)) /\
  Api.daily_stats
    (Api.with_file "rush_hours.json" Api.Missing (spark_output db_cities))
    db_cities (Some "Lyon")
    = Return (JArr [JObj [("trip_count", JInt 2); ("date", JStr "2026-11-03")]]) /\
  Api.hourly_stats
    (Api.with_file "rush_hours.json" Api.Missing (spark_output db_cities))
    db_cities (Some "Lyon")
    = Return (JArr [JObj [("trip_count", JInt 2); ("hour", JInt 8)]]).
Proof.
  destruct (daily_hourly_resolution
              (Api.with_file "rush_hours.json" Api.Missing (spark_output db_cities))
              db_cities None "Lyon" eq_refl ltac:(discriminate))
    as (Hd & _ & Hh & _).
  destruct (Hd (JArr (Analytics.daily_list db_cities)) eq_refl) as [H1 H2].
  destruct (Hh JNull eq_refl) as [_ H4].
  split; [apply H1; reflexivity|].
  split; [rewrite H2; vm_compute; reflexivity|].
  rewrite H4; vm_compute; reflexivity.
Defined.

(** C1, where the code leaves it: a request with a city filter does not
    ignore the artifact, it loads it first.  Whatever the Record Store
    holds, with an artifact file that is there and is not JSON
    [/stats/daily] and [/stats/hourly] raise [JSONDecodeError] on a request
    with a city filter; the same request is answered with the live rows of
    the city when the file is missing and when it holds any JSON value. *)
Theorem C1_city_filter_loads_the_artifact (fs : Api.artifact_dir)
    (db : list trip) (c : string) :
  c <> "" ->
  Api.daily_stats (Api.with_file "daily.json" Api.Malformed fs) db (Some c)
    = Raise JSONDecodeError /\
  Api.hourly_stats (Api.with_file "rush_hours.json" Api.Malformed fs) db (Some c)
    = Raise JSONDecodeError /\
  Api.daily_stats (Api.with_file "daily.json" Api.Missing fs) db (Some c)
    = Return (JArr (Api.daily_pipeline (Api.match_city c db))) /\
  Api.hourly_stats (Api.with_file "rush_hours.json" Api.Missing fs) db (Some c)
    = Return (JArr (Api.hourly_pipeline (Api.match_city c db))) /\
  (forall v,
     Api.daily_stats (Api.with_file "daily.json" (Api.Parsed v) fs) db (Some c)
       = Return (JArr (Api.daily_pipeline (Api.match_city c db)))) /\
  (forall v,
     Api.hourly_stats (Api.with_file "rush_hours.json" (Api.Parsed v) fs) db (Some c)
       = Return (JArr (Api.hourly_pipeline (Api.match_city c db)))).
Proof.
  intros Hc. apply param_truthy_Some in Hc.
  split; [reflexivity|]. split; [reflexivity|].
  unfold Api.daily_stats, Api.hourly_stats, Api.optional_match,
    Api.load_spark_result, Api.with_file.
  rewrite !String.eqb_refl, Hc. simpl.
  split; [reflexivity|]. split; [reflexivity|].
  split; intros v; by destruct (truthy v).
Qed.

(** The Spark output of [db_cities] with [daily.json] cut short, and a
    request for Lyon: an error where the live answer is one row. *)
Lemma C1_city_filter_witness :
  Api.daily_stats
    (Api.with_file "daily.json" Api.Malformed (spark_output db_cities))
    db_cities (Some "Lyon")
    = Raise JSONDecodeError /\
  Api.daily_stats
    (Api.with_file "daily.json" Api.Missing (spark_output db_cities))
    db_cities (Some "Lyon")
    = Return (JArr [JObj [("trip_count", JInt 2); ("date", JStr "2026-11-03")]]).
Proof.
  destruct (C1_city_filter_loads_the_artifact (spark_output db_cities)
              db_cities "Lyon" ltac:(discriminate))
    as (H1 & _ & H3 & _).
  split; [exact H1|]. rewrite H3. vm_compute. reflexivity.
Defined.

Lemma has_schema_rows {A} (f : A -> json) sch (l : list A) :
  (forall r, schema_of (f r) = sch) -> has_schema sch (Return (JArr (f <$> l))).
Proof.
  intros Hf. exists (f <$> l). split; [done|].
  apply Forall_fmap, Forall_forall. intros r _. apply Hf.
Qed.

(** An endpoint that returns the loaded list when it is not empty and the
    live rows otherwise. *)
Lemma has_schema_either sch (art live : list json) :
  Forall (fun r => schema_of r = sch) art ->
  Forall (fun r => schema_of r = sch) live ->
  has_schema sch (if truthy (JArr art) then Return (JArr art) else Return (JArr live)).
Proof. intros Ha Hl. destruct (truthy (JArr art)); eexists; eauto. Qed.

Lemma Forall_schema {A} (f : A -> json) sch (l : list A) :
  (forall r, schema_of (f r) = sch) -> Forall (fun r => schema_of r = sch) (f <$> l).
Proof. intros Hf. apply Forall_fmap, Forall_forall. intros r _. apply Hf. Qed.

Lemma mongo_limit_ok {A} (n : Z) (l : list A) :
  0 < n < 2 ^ 63 -> mongo_limit n l = Return (take (Z.to_nat n) l).
Proof.
  intros [H0 H63]. unfold mongo_limit.
  destruct (n <=? 0) eqn:E0; [apply Z.leb_le in E0; lia|].
  destruct (2 ^ 63 <=? n) eqn:E1; [apply Z.leb_le in E1; lia|done].
Qed.

(** C2: with no artifact in the directory, each of the five endpoints answers
    with rows of the same field names and value types as it does when the
    artifact computed from the same records is there: date and trip_count;
    hour and trip_count; city, avg_distance and trip_count; zone and
    trip_count; city, day_of_week and trip_count. *)
Theorem C2_live_schema_matches_artifact (df : list trip)
    (city : option string) (limit : Z) :
  0 < limit < 2 ^ 63 ->
  (has_schema daily_schema (Api.daily_stats no_artifacts df city) /\
   has_schema daily_schema (Api.daily_stats (spark_output df) df city)) /\
  (has_schema hourly_schema (Api.hourly_stats no_artifacts df city) /\
   has_schema hourly_schema (Api.hourly_stats (spark_output df) df city)) /\
  (has_schema cities_schema (Api.cities_stats no_artifacts df) /\
   has_schema cities_schema (Api.cities_stats (spark_output df) df)) /\
  (has_schema top_zones_schema (Api.top_zones no_artifacts df limit) /\
   has_schema top_zones_schema (Api.top_zones (spark_output df) df limit)) /\
  (has_schema weekday_schema (Api.weekday_stats no_artifacts df) /\
   has_schema weekday_schema (Api.weekday_stats (spark_output df) df)).
Proof.
  intros Hlimit.
  assert (Hd : forall rows, Forall (fun r => schema_of r = daily_schema)
                                   (Api.daily_pipeline rows))
    by (intros; by apply Forall_schema).
  assert (Hh : forall rows, Forall (fun r => schema_of r = hourly_schema)
                                   (Api.hourly_pipeline rows))
    by (intros; by apply Forall_schema).
  repeat split.
  - eexists; split; [reflexivity|apply Hd].
  - unfold Api.daily_stats. simpl.
    destruct (Analytics.daily_list df) eqn:Ha; simpl.
    + eexists; split; [reflexivity|apply Hd].
    + destruct (param_truthy city).
      * eexists; split; [reflexivity|apply Hd].
      * eexists; split; [reflexivity|]. rewrite <- Ha. by apply Forall_schema.
  - eexists; split; [reflexivity|apply Hh].
  - unfold Api.hourly_stats. simpl.
    destruct (Analytics.rush_list df) eqn:Ha; simpl.
    + eexists; split; [reflexivity|apply Hh].
    + destruct (param_truthy city); simpl.
      * eexists; split; [reflexivity|apply Hh].
      * eexists; split; [reflexivity|]. rewrite <- Ha. by apply Forall_schema.
  - by apply has_schema_rows.
  - unfold Api.cities_stats. simpl. apply has_schema_either; by apply Forall_schema.
  - unfold Api.top_zones, Api.top_zones_rows. simpl.
    rewrite mongo_limit_ok by done. simpl. by apply has_schema_rows.
  - unfold Api.top_zones, Api.top_zones_rows. simpl.
    destruct (Analytics.zones_list df) eqn:Ha.
    + simpl. rewrite mongo_limit_ok by done. simpl. by apply has_schema_rows.
    + rewrite <- Ha. simpl. eexists; split; [reflexivity|].
      unfold py_slice_stop. destruct (0 <=? limit); by apply Forall_take, Forall_schema.
  - by apply has_schema_rows.
  - unfold Api.weekday_stats. simpl. apply has_schema_either; by apply Forall_schema.
Qed.

(** The three trips of [db_cities], with the default limit of [/top-zones]. *)
Lemma C2_live_schema_witness :
  has_schema cities_schema (Api.cities_stats no_artifacts db_cities) /\
  has_schema cities_schema (Api.cities_stats (spark_output db_cities) db_cities).
Proof.
  apply (C2_live_schema_matches_artifact db_cities None 10). lia.
Defined.

(** The live pipeline of [/stats/cities] does sort by trip_count,
    descending, and gives one row per city with the number of its trips. *)
Lemma cities_rows_sorted db : Sorted count_desc (Api.cities_rows db).
Proof.
  unfold Api.cities_rows.
  eapply Sorted_weaken; [|apply sort_by_sorted, desc_total, nat_leb_total].
  intros x y H. unfold desc in H. by apply Nat.leb_le in H.
Qed.

Lemma cities_rows_spec db c a n :
  (c, a, n) ∈ Api.cities_rows db ->
  c ∈ city <$> db /\
  n = length (filter (fun t => city t = c) db) /\
  a = mean (distance_km <$> filter (fun t => city t = c) db).
Proof.
  unfold Api.cities_rows. rewrite elem_of_sort_by, list_elem_of_fmap.
  intros ([k xs] & [= -> -> ->] & Hin).
  apply elem_of_group_by in Hin as [Hk ->]. done.
Qed.

(** The artifact of the same family is sorted by avg_distance, descending;
    its rows are the cities with the mean distance of their trips, rounded to
    two places, and the number of their trips. *)
Lemma avg_dist_sorted df : Sorted avg_distance_desc (Analytics.avg_dist df).
Proof.
  unfold Analytics.avg_dist.
  eapply Sorted_weaken; [|apply sort_by_sorted, desc_total, Qle_bool_total].
  intros x y H. unfold desc in H. by apply Qle_bool_iff in H.
Qed.

Lemma avg_dist_spec df c a n :
  (c, a, n) ∈ Analytics.avg_dist df ->
  c ∈ city <$> df /\
  n = length (filter (fun t => city t = c) df) /\
  a = round_half_up (mean (distance_km <$> filter (fun t => city t = c) df)) 2.
Proof.
  unfold Analytics.avg_dist. rewrite elem_of_sort_by, list_elem_of_fmap.
  intros ([k xs] & [= -> -> ->] & Hin).
  apply elem_of_group_by in Hin as [Hk ->]. done.
Qed.

(** C3, on the trips of [db_cities] (Paris: one trip of 10 km; Lyon: two
    trips of 1 km): the artifact the Spark job writes, which the endpoint
    returns as it is, lists Paris (trip_count 1) before Lyon (trip_count 2),
    the order of avg_distance; the live fallback lists Lyon first. *)
Theorem C3_cities_artifact_sorted_by_avg_distance :
  Api.cities_stats (spark_output db_cities) db_cities
    = Return (JArr
        [JObj [("city", JStr "Paris"); ("avg_distance", JFloat 10);
               ("trip_count", JInt 1)];
         JObj [("city", JStr "Lyon"); ("avg_distance", JFloat 1);
               ("trip_count", JInt 2)]]) /\
  Analytics.avg_dist db_cities = [("Paris", 10%Q, 1%nat); ("Lyon", 1%Q, 2%nat)] /\
  ~ Sorted count_desc (Analytics.avg_dist db_cities) /\
  Api.cities_stats no_artifacts db_cities
    = Return (JArr
        [JObj [("trip_count", JInt 2); ("city", JStr "Lyon");
               ("avg_distance", JFloat 1)];
         JObj [("trip_count", JInt 1); ("city", JStr "Paris");
               ("avg_distance", JFloat 10)]]).
Proof.
  assert (Hrows : Analytics.avg_dist db_cities
                  = [("Paris", 10%Q, 1%nat); ("Lyon", 1%Q, 2%nat)])
    by (vm_compute; reflexivity).
  split; [vm_compute; reflexivity|]. split; [exact Hrows|].
  split; [|vm_compute; reflexivity].
  rewrite Hrows. intros Hs. inversion Hs as [|? ? _ Hd]; subst.
  inversion Hd as [|? ? Hle]; subst. unfold count_desc in Hle. simpl in Hle. lia.
Qed.

(** * The weekday family *)

Lemma by_day_sorted df : Sorted city_desc_count_desc (Analytics.by_day df).
Proof.
  unfold Analytics.by_day.
  eapply Sorted_weaken;
    [|apply sort_by_sorted, then_by_total;
      [apply desc_total, string_leb_total|apply desc_total, nat_leb_total]].
  intros x y. unfold then_by, desc, city_desc_count_desc.
  destruct (String.leb y.1.1 x.1.1) eqn:Hyx; [|done].
  destruct (String.leb x.1.1 y.1.1) eqn:Hxy.
  - intros Hle%Nat.leb_le. done.
  - intros _. split; [done|]. intros Heq. rewrite Heq in Hxy.
    destruct (String.leb_total y.1.1 y.1.1); congruence.
Qed.

Lemma by_day_spec df c w n :
  (c, w, n) ∈ Analytics.by_day df <->
  (0 < n)%nat /\
  n = length (filter (fun t => (city t, day_of_week t) = (c, w)) df).
Proof.
  unfold Analytics.by_day. rewrite elem_of_sort_by.
  apply (group_sum1_spec (fun t => (city t, day_of_week t))).
Qed.

Lemma weekday_rows_perm df : Api.weekday_rows df ≡ₚ Analytics.by_day df.
Proof. unfold Analytics.by_day. by rewrite sort_by_perm. Qed.

(** C4, as the code has it: the by_day_of_week artifact has one row per
    (city, day_of_week) that occurs, with the number of its trips, sorted by
    city descending and then by trip_count descending, and the endpoint
    returns it as it is; without the artifact the endpoint returns the same
    rows, in the order the [$group] stage emits them. *)
Theorem C4_weekday_rows_and_order (df : list trip) :
  Api.weekday_stats (spark_output df) df = Return (JArr (Analytics.day_list df)) /\
  Sorted city_desc_count_desc (Analytics.by_day df) /\
  (forall c w n, (c, w, n) ∈ Analytics.by_day df <->
     (0 < n)%nat /\
     n = length (filter (fun t => (city t, day_of_week t) = (c, w)) df)) /\
  NoDup (Analytics.by_day df).*1 /\
  Api.weekday_stats no_artifacts df = Return (JArr (Api.weekday_pipeline df)) /\
  Api.weekday_rows df ≡ₚ Analytics.by_day df.
Proof.
  split; [|split; [apply by_day_sorted|split; [apply by_day_spec|split; [|split]]]].
  - unfold Api.weekday_stats. simpl.
    destruct (Analytics.day_list df) eqn:Ha; [|done]. simpl.
    apply fmap_nil_inv in Ha.
    pose proof (weekday_rows_perm df) as Hp. rewrite Ha in Hp.
    apply Permutation_nil_r in Hp. unfold Api.weekday_pipeline. by rewrite Hp.
  - unfold Analytics.by_day. rewrite sort_by_perm.
    apply (group_sum1_keys (fun t => (city t, day_of_week t))).
  - done.
  - apply weekday_rows_perm.
Qed.

(** C4 fails as stated: with one trip in Lyon and one in Paris the artifact,
    and so the answer of the endpoint, has the row of Paris first. *)
Lemma C4_weekday_not_city_ascending :
  Api.weekday_stats (spark_output db_two_cities) db_two_cities
    = Return (JArr
        [JObj [("city", JStr "Paris"); ("day_of_week", JStr "Tuesday");
               ("trip_count", JInt 1)];
         JObj [("city", JStr "Lyon"); ("day_of_week", JStr "Tuesday");
               ("trip_count", JInt 1)]]) /\
  Analytics.by_day db_two_cities
    = [("Paris", "Tuesday", 1%nat); ("Lyon", "Tuesday", 1%nat)] /\
  ~ Sorted city_asc_count_desc (Analytics.by_day db_two_cities).
Proof.
  assert (Hrows : Analytics.by_day db_two_cities
                  = [("Paris", "Tuesday", 1%nat); ("Lyon", "Tuesday", 1%nat)])
    by (vm_compute; reflexivity).
  split; [vm_compute; reflexivity|]. split; [exact Hrows|].
  rewrite Hrows. intros Hs. inversion Hs as [|? ? _ Hd]; subst.
  inversion Hd as [|? ? [Hle _]]; subst. vm_compute in Hle. discriminate.
Qed.

(** * Artifact files that cannot be loaded *)

(** For each of the five routes: an artifact file that is missing, or that
    holds an empty array, sends the request to the live aggregation; a file
    that is there and does not load makes the route raise what the load
    raises, [OSError] from [open], and from [json.load] [UnicodeDecodeError],
    [JSONDecodeError] or [RecursionError]. *)
Theorem unloadable_artifact_raises (fs : Api.artifact_dir) (db : list trip)
    (r : Api.request) :
  Api.serve (Api.with_file (Api.artifact_of r) Api.Malformed fs) db r
    = Raise JSONDecodeError /\
  Api.serve (Api.with_file (Api.artifact_of r) Api.Unreadable fs) db r
    = Raise OSError /\
  Api.serve (Api.with_file (Api.artifact_of r) Api.NotText fs) db r
    = Raise UnicodeDecodeError /\
  Api.serve (Api.with_file (Api.artifact_of r) Api.TooDeep fs) db r
    = Raise RecursionError /\
  Api.serve (Api.with_file (Api.artifact_of r) Api.Missing fs) db r
    = Api.serve no_artifacts db r /\
  Api.serve (Api.with_file (Api.artifact_of r) (Api.Parsed (JArr [])) fs) db r
    = Api.serve no_artifacts db r.
Proof. destruct r; repeat split; reflexivity. Qed.

(** C5, where the code leaves it: an artifact file that is there and is not
    JSON is not treated as a missing one.  Where every artifact file is
    malformed the load raises [JSONDecodeError] and so does [/stats/daily],
    which answers with the live rows of the same Record Store when the file
    is missing. *)
Theorem C5_malformed_not_treated_as_missing :
  Api.load_spark_result all_malformed "daily.json" = Raise JSONDecodeError /\
  Api.daily_stats all_malformed db_cities None = Raise JSONDecodeError /\
  Api.daily_stats no_artifacts db_cities None
    = Return (JArr [JObj [("trip_count", JInt 3); ("date", JStr "2026-11-03")]]) /\
  Api.daily_stats all_malformed db_cities None
    <> Api.daily_stats no_artifacts db_cities None.
Proof.
  split; [reflexivity|]. split; [reflexivity|].
  split; [vm_compute; reflexivity|]. vm_compute. discriminate.
Qed.

(** * The top zones *)

Lemma top_zones_sorted df : Sorted count_desc (Analytics.top_zones df).
Proof.
  unfold Analytics.top_zones.
  eapply Sorted_weaken; [|apply sort_by_sorted, desc_total, nat_leb_total].
  intros x y H. unfold desc in H. by apply Nat.leb_le in H.
Qed.

Lemma top_zones_spec df z n :
  (z, n) ∈ Analytics.top_zones df <->
  (0 < n)%nat /\ n = length (filter (fun t => zone_start t = z) df).
Proof.
  unfold Analytics.top_zones. rewrite elem_of_sort_by.
  apply (group_sum1_spec zone_start).
Qed.

Lemma take_length_le {A} (n : Z) (l : list A) :
  0 <= n -> Z.of_nat (length (take (Z.to_nat n) l)) <= n.
Proof. intros Hn. rewrite length_take. lia. Qed.

(** C6, as the code has it: for a limit from 1 to 2^63 - 1, [/top-zones]
    returns at most [limit] rows, each with a trip_count at least that of the
    next, both when the artifact is there (the first [limit] rows of it) and
    when it is not (the first [limit] rows of the live ranking); each row of
    the ranking is a zone with the number of trips that start there; a
    request without a limit is served with limit 10. *)
Theorem C6_top_zones_truncated_descending (df : list trip) (limit : Z) :
  0 < limit < 2 ^ 63 ->
  let art := take (Z.to_nat limit) (Analytics.top_zones df) in
  let live := take (Z.to_nat limit)
                (sort_by (desc Nat.leb snd) (Api.group_sum1 zone_start df)) in
  Api.top_zones (spark_output df) df limit
    = Return (JArr (Analytics.zone_row <$> art)) /\
  Api.top_zones no_artifacts df limit = Return (JArr (Api.zone_doc <$> live)) /\
  (Z.of_nat (length art) <= limit /\ Sorted count_desc art) /\
  (Z.of_nat (length live) <= limit /\ Sorted count_desc live) /\
  (forall z n, (z, n) ∈ Analytics.top_zones df <->
     (0 < n)%nat /\ n = length (filter (fun t => zone_start t = z) df)) /\
  (forall fs, Api.top_zones_query fs df None = Api.top_zones fs df 10).
Proof.
  intros Hlimit art live.
  assert (Hlen : forall l : list (string * nat),
            Z.of_nat (length (take (Z.to_nat limit) l)) <= limit)
    by (intros; apply take_length_le; lia).
  split; [|split; [|split; [|split; [|split]]]].
  - unfold Api.top_zones, Api.top_zones_rows. simpl.
    destruct (Analytics.zones_list df) eqn:Ha.
    + simpl. rewrite mongo_limit_ok by done. simpl.
      apply fmap_nil_inv in Ha. unfold art.
      change (sort_by (desc Nat.leb snd) (Api.group_sum1 zone_start df))
        with (Analytics.top_zones df).
      by rewrite Ha, take_nil.
    + rewrite <- Ha. simpl. unfold py_slice_stop, Analytics.zones_list.
      destruct (0 <=? limit) eqn:E; [|apply Z.leb_gt in E; lia].
      unfold art. by rewrite fmap_take.
  - unfold Api.top_zones, Api.top_zones_rows. simpl.
    by rewrite mongo_limit_ok by done.
  - split; [apply Hlen|]. apply Sorted_take_prefix, top_zones_sorted.
  - split; [apply Hlen|]. apply Sorted_take_prefix, (top_zones_sorted df).
  - apply top_zones_spec.
  - done.
Qed.

(** The three zones of [db_zones], limit 2. *)
Lemma C6_top_zones_witness :
  Api.top_zones (spark_output db_zones) db_zones 2
    = Return (JArr (Analytics.zone_row <$> take 2 (Analytics.top_zones db_zones))).
Proof.
  apply (C6_top_zones_truncated_descending db_zones 2). lia.
Defined.

(** C6 fails as stated: three zones with one trip each, scanned in the order
    B, A, C, come out in that order, which follows the zone names in neither
    direction; and with limit 0 and no artifact the [$limit] stage is
    rejected. *)
Lemma C6_ties_not_by_zone_name :
  Api.top_zones (spark_output db_zones) db_zones 10
    = Return (JArr
        [JObj [("zone", JStr "Zone B"); ("trip_count", JInt 1)];
         JObj [("zone", JStr "Zone A"); ("trip_count", JInt 1)];
         JObj [("zone", JStr "Zone C"); ("trip_count", JInt 1)]]) /\
  Analytics.top_zones db_zones
    = [("Zone B", 1%nat); ("Zone A", 1%nat); ("Zone C", 1%nat)] /\
  ~ Sorted ties_by_zone_asc (Analytics.top_zones db_zones) /\
  ~ Sorted ties_by_zone_desc (Analytics.top_zones db_zones) /\
  Api.top_zones no_artifacts db_zones 0 = Raise OperationFailure.
Proof.
  assert (Hrows : Analytics.top_zones db_zones
                  = [("Zone B", 1%nat); ("Zone A", 1%nat); ("Zone C", 1%nat)])
    by (vm_compute; reflexivity).
  split; [vm_compute; reflexivity|]. split; [exact Hrows|].
  rewrite Hrows. split; [|split; [|reflexivity]].
  - intros Hs. inversion Hs as [|? ? _ Hd]; subst.
    inversion Hd as [|? ? Hle]; subst.
    specialize (Hle eq_refl). vm_compute in Hle. discriminate.
  - intros Hs. inversion Hs as [|? ? Hs' _]; subst.
    inversion Hs' as [|? ? _ Hd]; subst.
    inversion Hd as [|? ? Hle]; subst.
    specialize (Hle eq_refl). vm_compute in Hle. discriminate.
Qed.

(** C10: [/top-zones] accepts a negative limit; when the artifact holds
    the rows [rows], the request with limit [-k] is answered with all of
    them but the last [k], and with limit -1 with all but the last. *)
Theorem C10_negative_limit_drops_last_rows (fs : Api.artifact_dir)
    (db : list trip) (rows : list json) (k : Z) :
  fs "top_zones.json" = Api.Parsed (JArr rows) ->
  rows <> [] ->
  0 < k ->
  Api.top_zones fs db (- k)
    = Return (JArr (take (length rows - Z.to_nat k) rows)) /\
  Api.top_zones fs db (-1) = Return (JArr (removelast rows)).
Proof.
  intros Hfs Hrows Hk.
  assert (Hgen : forall j, 0 < j ->
    Api.top_zones fs db (- j) = Return (JArr (take (length rows - Z.to_nat j) rows))).
  { intros j Hj. unfold Api.top_zones, Api.load_spark_result. rewrite Hfs. simpl.
    destruct rows as [|r rows']; [done|]. simpl truthy. cbv iota.
    unfold Api.slice_json, py_slice_stop.
    destruct (0 <=? - j) eqn:E; [apply Z.leb_le in E; lia|].
    do 3 f_equal. lia. }
  split; [by apply Hgen|].
  specialize (Hgen 1 ltac:(lia)). change (Z.opp 1) with (Zneg 1) in Hgen.
  rewrite Hgen. do 2 f_equal. rewrite removelast_firstn_len. f_equal.
  change (Z.to_nat 1) with 1%nat. lia.
Qed.

(** Five zones in the artifact and limit -1: four rows come back. *)
Lemma C10_negative_limit_witness :
  Api.top_zones
    (Api.with_file "top_zones.json"
       (Api.Parsed (JArr (Analytics.zone_row <$>
          [("Zone A", 9%nat); ("Zone B", 7%nat); ("Zone C", 5%nat);
           ("Zone D", 3%nat); ("Zone E", 1%nat)]))) no_artifacts) [] (-1)
  = Return (JArr (Analytics.zone_row <$>
          [("Zone A", 9%nat); ("Zone B", 7%nat); ("Zone C", 5%nat);
           ("Zone D", 3%nat)])).
Proof.
  destruct (C10_negative_limit_drops_last_rows
           (Api.with_file "top_zones.json"
              (Api.Parsed (JArr (Analytics.zone_row <$>
                 [("Zone A", 9%nat); ("Zone B", 7%nat); ("Zone C", 5%nat);
                  ("Zone D", 3%nat); ("Zone E", 1%nat)]))) no_artifacts) []
           (Analytics.zone_row <$>
                 [("Zone A", 9%nat); ("Zone B", 7%nat); ("Zone C", 5%nat);
                  ("Zone D", 3%nat); ("Zone E", 1%nat)]) 1) as [H _].
  - reflexivity.
  - discriminate.
  - lia.
  - exact H.
Defined.

(** * The routes that read the Record Store only *)

Lemma field_is_spec (field : trip -> string) (p : option string) (t : trip) :
  Api.field_is field p t = true <->
  (forall v, p = Some v -> v <> "" -> field t = v).
Proof.
  unfold Api.field_is. destruct p as [v|]; simpl.
  - destruct (String.eqb v "") eqn:Hv; simpl.
    + apply String.eqb_eq in Hv as ->. split; [|done].
      intros _ v [= <-] Hne. done.
    + apply String.eqb_neq in Hv. rewrite String.eqb_eq. split.
      * intros -> v' [= <-] _. done.
      * intros H. by apply H.
  - split; [|done]. intros _ v [=].
Qed.

Lemma query_meets (qc qd : option string) (t : trip) :
  Api.city_is qc t && Api.date_is qd t <-> meets qc qd t.
Proof.
  unfold meets, Api.city_is, Api.date_is.
  rewrite andb_True, !Is_true_true, !field_is_spec. done.
Qed.

(** [/trips] with a limit from 1 to 1000: the handler runs and returns the
    first [limit] trips, in scan order, among those that meet the conditions
    of the request, that is the trips of the store that meet them, cut after
    [limit]; so the rows are trips of the store in scan order, each meets the
    conditions, and a trip that meets them is missing only from a full
    page. *)
Theorem get_trips_page (sb : nat -> list trip -> list trip) (db : list trip)
    (qc qd : option string) (limit : Z) :
  0 < limit <= 1000 ->
  exists rows,
    Api.get_trips sb db qc qd (Some limit) = Api.Accepted rows /\
    rows `sublist_of` db /\
    Forall (meets qc qd) rows /\
    Z.of_nat (length rows) <= limit /\
    (forall t, t ∈ db -> meets qc qd t ->
       t ∈ rows \/ Z.of_nat (length rows) = limit) /\
    rows = take (Z.to_nat limit) (filter (meets qc qd) db).
Proof.
  intros [Hpos Hmax].
  exists (take (Z.to_nat limit)
            (filter (fun t => Api.city_is qc t && Api.date_is qd t) db)).
  split.
  { unfold Api.get_trips, Api.cursor_limit. simpl.
    destruct (1000 <? limit) eqn:E; [apply Z.ltb_lt in E; lia|].
    destruct (limit =? 0) eqn:E0; [apply Z.eqb_eq in E0; lia|].
    destruct (0 <? limit) eqn:E1; [done|apply Z.ltb_ge in E1; lia]. }
  split; [|split; [|split; [|split]]].
  - etrans; [apply sublist_take|apply sublist_filter].
  - apply Forall_take, Forall_forall. intros t Ht.
    apply list_elem_of_filter in Ht as [Ht _]. by apply query_meets.
  - rewrite length_take. lia.
  - intros t Ht Hm.
    set (ms := filter (fun t => Api.city_is qc t && Api.date_is qd t) db).
    destruct (decide (length ms <= Z.to_nat limit)%nat) as [Hle|Hgt].
    + left. rewrite take_ge by done. apply list_elem_of_filter.
      split; [by apply query_meets|done].
    + right. rewrite length_take. lia.
  - f_equal. apply list_filter_iff. intros t. apply query_meets.
Qed.

(** The three trips of [db_cities], the Lyon ones asked for one at a time. *)
Lemma get_trips_page_witness :
  exists rows,
    Api.get_trips (fun n l => take n l) db_cities (Some "Lyon") None (Some 1)
      = Api.Accepted rows /\
    Z.of_nat (length rows) <= 1 /\
    rows = take 1 (filter (meets (Some "Lyon") None) db_cities).
Proof.
  destruct (get_trips_page (fun n l => take n l) db_cities (Some "Lyon") None 1)
    as (rows & H1 & _ & _ & H4 & _ & H6); [lia|].
  exists rows. split; [exact H1|]. split; [exact H4|exact H6].
Defined.

(** The bounds of [limit] on [/trips]: a limit above 1000 is rejected whatever
    the store holds, but nothing bounds it from below, and limit 0 lifts the
    bound altogether: every trip that meets the conditions comes back, the
    whole collection when there is no condition. *)
Theorem get_trips_limit_bounds (sb : nat -> list trip -> list trip)
    (db : list trip) (qc qd : option string) :
  (forall limit, 1000 < limit ->
     Api.get_trips sb db qc qd (Some limit) = Api.Rejected) /\
  (exists rows,
     Api.get_trips sb db qc qd (Some 0) = Api.Accepted rows /\
     rows `sublist_of` db /\
     forall t, t ∈ rows <-> t ∈ db /\ meets qc qd t) /\
  Api.get_trips sb db None None (Some 0) = Api.Accepted db /\
  Api.get_trips sb db qc qd None = Api.get_trips sb db qc qd (Some 100).
Proof.
  split; [|split; [|split]].
  - intros limit H. unfold Api.get_trips. simpl.
    destruct (1000 <? limit) eqn:E; [done|apply Z.ltb_ge in E; lia].
  - exists (filter (fun t => Api.city_is qc t && Api.date_is qd t) db).
    split; [reflexivity|]. split; [apply sublist_filter|].
    intros t. rewrite list_elem_of_filter, query_meets. tauto.
  - unfold Api.get_trips, Api.cursor_limit. simpl. f_equal.
    induction db as [|t db IH]; [done|]. by rewrite filter_cons_True, IH.
  - done.
Qed.

(** [/cities] lists each city of the Record Store once, and a city filter on
    [/stats/daily] or [/stats/hourly] gives an empty answer exactly when the
    artifact file of the route is missing or holds a JSON value and the city
    is one that [/cities] does not list; with a file that is there and does
    not load the answer is the error of the load. *)
Theorem get_cities_and_filters (fs : Api.artifact_dir) (db : list trip)
    (c : string) :
  c <> "" ->
  NoDup (Api.get_cities db) /\
  (forall c', c' ∈ Api.get_cities db <-> exists t, t ∈ db /\ city t = c') /\
  (Api.daily_stats fs db (Some c) = Return (JArr []) <->
     (exists v, Api.load_spark_result fs "daily.json" = Return v) /\
     c ∉ Api.get_cities db) /\
  (Api.hourly_stats fs db (Some c) = Return (JArr []) <->
     (exists v, Api.load_spark_result fs "rush_hours.json" = Return v) /\
     c ∉ Api.get_cities db) /\
  (forall e, Api.load_spark_result fs "daily.json" = Raise e ->
     Api.daily_stats fs db (Some c) = Raise e) /\
  (forall e, Api.load_spark_result fs "rush_hours.json" = Raise e ->
     Api.hourly_stats fs db (Some c) = Raise e).
Proof.
  intros Hc.
  assert (Hin : forall c', c' ∈ Api.get_cities db <-> exists t, t ∈ db /\ city t = c').
  { intros c'. unfold Api.get_cities. rewrite elem_of_remove_dups, list_elem_of_fmap.
    split; intros (t & ? & ?); eauto. }
  assert (Hnone : Api.match_city c db = [] <-> c ∉ Api.get_cities db).
  { rewrite Hin. unfold Api.match_city. split.
    - intros Hnil (t & Ht & Hct).
      assert (t ∈ filter (fun t => city t = c) db) as Hf
        by (by apply list_elem_of_filter).
      rewrite Hnil in Hf. by apply elem_of_nil in Hf.
    - intros Hno. destruct (filter (fun t => city t = c) db) as [|t l] eqn:E; [done|].
      assert (t ∈ filter (fun t => city t = c) db) as Hf by (rewrite E; left).
      apply list_elem_of_filter in Hf as [? ?]. destruct Hno. eauto. }
  assert (Hg : forall `{EqDecision K} (key : trip -> K) rows,
            Api.group_sum1 key rows = [] <-> rows = []).
  { intros K ? key rows. split; [|by intros ->].
    destruct rows as [|t rows]; [done|]. intros Hnil.
    assert ((key t, length (filter (fun x => key x = key t) (t :: rows)))
            ∈ Api.group_sum1 key (t :: rows)) as Hf.
    { apply elem_of_group_sum1. split; [|done]. rewrite fmap_cons. left. }
    rewrite Hnil in Hf. by apply elem_of_nil in Hf. }
  assert (Hs : forall {A} (le : A -> A -> bool) l, sort_by le l = [] <-> l = []).
  { intros A le l. split; [|by intros ->]. intros Hnil.
    apply Permutation_nil_r. rewrite <- Hnil. by rewrite sort_by_perm. }
  assert (Hdp : Api.daily_pipeline (Api.match_city c db) = [] <-> c ∉ Api.get_cities db).
  { rewrite <- Hnone. unfold Api.daily_pipeline, Api.daily_rows.
    rewrite <- (Hg _ _ date), <- (Hs _ (asc String.leb fst)). split.
    - apply fmap_nil_inv.
    - by intros ->. }
  assert (Hhp : Api.hourly_pipeline (Api.match_city c db) = [] <-> c ∉ Api.get_cities db).
  { rewrite <- Hnone. unfold Api.hourly_pipeline, Api.hourly_rows.
    rewrite <- (Hg _ _ hour), <- (Hs _ (asc Z.leb fst)). split.
    - apply fmap_nil_inv.
    - by intros ->. }
  apply param_truthy_Some in Hc.
  split; [apply NoDup_remove_dups|]. split; [exact Hin|].
  unfold Api.daily_stats, Api.hourly_stats, Api.optional_match.
  rewrite Hc. simpl.
  split; [|split; [|split]].
  - rewrite <- Hdp.
    destruct (Api.load_spark_result fs "daily.json") as [vd|e]; simpl.
    + split.
      * intros H. split; [by exists vd|]. destruct (truthy vd); congruence.
      * intros [_ ->]. by destruct (truthy vd).
    + split; [done|]. by intros [[v ?] _].
  - rewrite <- Hhp.
    destruct (Api.load_spark_result fs "rush_hours.json") as [vh|e]; simpl.
    + split.
      * intros H. split; [by exists vh|]. destruct (truthy vh); simpl in H; congruence.
      * intros [_ ->]. by destruct (truthy vh).
    + split; [done|]. by intros [[v ?] _].
  - by intros e ->.
  - by intros e ->.
Qed.

(** With the artifacts of [db_cities] in place, Lyon is listed and Nice is
    not. *)
Lemma get_cities_and_filters_witness :
  Api.daily_stats (spark_output db_cities) db_cities (Some "Nice") = Return (JArr []).
Proof.
  destruct (get_cities_and_filters (spark_output db_cities) db_cities "Nice"
              ltac:(discriminate))
    as (_ & _ & [_ H] & _).
  apply H. split; [by eexists|].
  vm_compute. intros Hin.
  repeat (apply elem_of_cons in Hin as [Hin|Hin]; [discriminate|]).
  by apply elem_of_nil in Hin.
Defined.

(** * More on the aggregates *)

Lemma total_trip_count_rows {A} (f : A -> json) (g : A -> nat) (rows : list A) :
  (forall r, trip_count_of (f r) = Z.of_nat (g r)) ->
  total_trip_count (f <$> rows) = Z.of_nat (sum_list_with g rows).
Proof.
  intros Hf. induction rows as [|r rows IH]; [done|]. csimpl.
  rewrite IH, Hf. lia.
Qed.

Lemma sum_list_with_fmap {A B} (f : B -> nat) (h : A -> B) (l : list A) :
  sum_list_with f (h <$> l) = sum_list_with (f ∘ h) l.
Proof. induction l as [|x l IH]; [done|]. csimpl. by rewrite IH. Qed.

Lemma groups_total `{EqDecision K} {B} (key : trip -> K)
    (h : K * list trip -> B) (cnt : B -> nat) (le : B -> B -> bool) df :
  (forall g, cnt (h g) = length g.2) ->
  sum_list_with cnt (sort_by le (h <$> group_by key df)) = length df.
Proof.
  intros Hc. rewrite sort_by_perm, sum_list_with_fmap.
  rewrite <- (group_by_sizes key df).
  induction (group_by key df) as [|g gs IH]; [done|]. csimpl.
  rewrite IH. unfold id. by rewrite Hc.
Qed.

(** Each trip of the collection is counted once in each aggregate: the
    trip_count values of each of the five artifacts, and of each live pipeline
    that has no [$limit], sum to the number of trips. *)
Theorem aggregates_count_every_trip (df : list trip) :
  (total_trip_count (Analytics.daily_list df) = Z.of_nat (length df) /\
   total_trip_count (Analytics.avg_list df) = Z.of_nat (length df) /\
   total_trip_count (Analytics.rush_list df) = Z.of_nat (length df) /\
   total_trip_count (Analytics.zones_list df) = Z.of_nat (length df) /\
   total_trip_count (Analytics.day_list df) = Z.of_nat (length df)) /\
  (total_trip_count (Api.daily_pipeline df) = Z.of_nat (length df) /\
   total_trip_count (Api.hourly_pipeline df) = Z.of_nat (length df) /\
   total_trip_count (Api.cities_pipeline df) = Z.of_nat (length df) /\
   total_trip_count (Api.weekday_pipeline df) = Z.of_nat (length df)).
Proof.
  assert (Hw : sum_list_with snd (Api.weekday_rows df) = length df).
  { unfold Api.weekday_rows, Api.group_sum1. rewrite sum_list_with_fmap.
    rewrite <- (group_by_sizes (fun t => (city t, day_of_week t)) df).
    induction (group_by _ df) as [|g gs IH]; [done|]. csimpl. by rewrite IH. }
  split; [split; [|split; [|split; [|split]]]|split; [|split; [|split]]].
  - unfold Analytics.daily_list. rewrite (total_trip_count_rows _ snd) by done.
    f_equal. by apply (groups_total date).
  - unfold Analytics.avg_list. rewrite (total_trip_count_rows _ snd) by done.
    f_equal. by apply (groups_total city).
  - unfold Analytics.rush_list. rewrite (total_trip_count_rows _ snd) by done.
    f_equal. by apply (groups_total hour).
  - unfold Analytics.zones_list. rewrite (total_trip_count_rows _ snd) by done.
    f_equal. by apply (groups_total zone_start).
  - unfold Analytics.day_list. rewrite (total_trip_count_rows _ snd) by done.
    f_equal. by apply (groups_total (fun t => (city t, day_of_week t))).
  - unfold Api.daily_pipeline. rewrite (total_trip_count_rows _ snd) by done.
    f_equal. by apply (groups_total date).
  - unfold Api.hourly_pipeline. rewrite (total_trip_count_rows _ snd) by done.
    f_equal. by apply (groups_total hour).
  - unfold Api.cities_pipeline. rewrite (total_trip_count_rows _ snd) by done.
    f_equal. by apply (groups_total city).
  - unfold Api.weekday_pipeline. rewrite (total_trip_count_rows _ snd) by done.
    by f_equal.
Qed.

Lemma Sorted_NoDup_strict {A K} (R : K -> K -> Prop) (f : A -> K) (l : list A) :
  Sorted (fun x y => R (f x) (f y)) l -> NoDup (f <$> l) ->
  Sorted (fun x y => R (f x) (f y) /\ f x <> f y) l.
Proof.
  induction 1 as [|x l Hs IH Hd]; intros Hnd; [constructor|].
  rewrite fmap_cons in Hnd. apply NoDup_cons in Hnd as [Hx Hnd].
  constructor; [by apply IH|].
  destruct Hd as [|y l Hxy]; constructor. split; [done|].
  intros Heq. apply Hx. rewrite fmap_cons, Heq. left.
Qed.

Lemma sort_by_keys_NoDup {A K} (le : A -> A -> bool) (f : A -> K) (l : list A) :
  NoDup (f <$> l) -> NoDup (f <$> sort_by le l).
Proof. intros H. by rewrite sort_by_perm. Qed.

Lemma date_strictly_asc_trans x y z :
  date_strictly_asc x y -> date_strictly_asc y z -> date_strictly_asc x z.
Proof.
  intros [Hxy Hne] [Hyz Hne']. split.
  - apply Is_true_true. apply Is_true_true in Hxy, Hyz.
    exact (transitivity (R:=String.le) Hxy Hyz).
  - intros Heq. rewrite Heq in Hxy. apply Hne'.
    by apply String.leb_antisym.
Qed.

Lemma hour_strictly_asc_trans x y z :
  hour_strictly_asc x y -> hour_strictly_asc y z -> hour_strictly_asc x z.
Proof. unfold hour_strictly_asc. lia. Qed.

Lemma daily_strongly_sorted (df : list trip) :
  StronglySorted date_strictly_asc (Analytics.daily df).
Proof.
  apply Sorted_StronglySorted; [exact date_strictly_asc_trans|].
  apply (Sorted_NoDup_strict (fun a b => String.leb a b = true) fst).
  - apply daily_sorted.
  - apply sort_by_keys_NoDup, group_sum1_keys.
Qed.

Lemma rush_strongly_sorted (df : list trip) :
  StronglySorted hour_strictly_asc (Analytics.rush df).
Proof.
  apply Sorted_StronglySorted; [exact hour_strictly_asc_trans|].
  eapply Sorted_weaken;
    [|apply (Sorted_NoDup_strict Z.le fst);
      [apply rush_sorted|apply sort_by_keys_NoDup, group_sum1_keys]].
  intros x y [Hle Hne]. unfold hour_strictly_asc. lia.
Qed.

(** The daily rows come in strictly ascending order of the date string and
    the hourly rows in strictly ascending order of the hour, any row before
    any later one: one row per date, one row per hour, on the batch path and
    on the live path alike. *)
Theorem daily_rush_strictly_ascending (df : list trip) :
  StronglySorted date_strictly_asc (Analytics.daily df) /\
  StronglySorted hour_strictly_asc (Analytics.rush df) /\
  StronglySorted date_strictly_asc (Api.daily_rows df) /\
  StronglySorted hour_strictly_asc (Api.hourly_rows df).
Proof.
  split; [apply daily_strongly_sorted|].
  split; [apply rush_strongly_sorted|].
  split; [apply daily_strongly_sorted|apply rush_strongly_sorted].
Qed.

(** The hourly rows when every trip has its hour in 0..23: there are at most
    24 of them, as many as there are distinct hours, and none has a
    trip_count of zero. *)
Theorem rush_at_most_24_rows (df : list trip) :
  Forall (fun t => 0 <= hour t <= 23) df ->
  (length (Analytics.rush df) <= 24)%nat /\
  length (Analytics.rush df) = length (remove_dups (hour <$> df)) /\
  Forall (fun r => 0 <= r.1 <= 23 /\ (0 < r.2)%nat) (Analytics.rush df).
Proof.
  intros Hv.
  assert (Hlen : length (Analytics.rush df) = length (remove_dups (hour <$> df))).
  { unfold Analytics.rush. rewrite sort_by_perm.
    unfold Analytics.count_rows. rewrite length_fmap.
    by rewrite <- (group_by_keys hour df), length_fmap. }
  split; [|split; [done|]].
  - rewrite Hlen.
    change 24%nat with (length (seqZ 0 24)).
    apply submseteq_length, NoDup_submseteq; [apply NoDup_remove_dups|].
    intros h Hh. apply elem_of_remove_dups, list_elem_of_fmap in Hh as (t & -> & Ht).
    rewrite Forall_forall in Hv. apply elem_of_seqZ. specialize (Hv t Ht). lia.
  - apply Forall_forall. intros [h n] Hin.
    apply elem_of_sort_by in Hin.
    pose proof Hin as Hin'.
    apply (group_sum1_spec hour) in Hin as [Hpos _].
    apply (elem_of_group_sum1 hour) in Hin' as [Hh _].
    apply list_elem_of_fmap in Hh as (t & -> & Ht).
    rewrite Forall_forall in Hv. split; [apply (Hv t Ht)|done].
Qed.

(** The three trips of [db_cities], all at 8 o'clock: one row. *)
Lemma rush_at_most_24_rows_witness :
  (length (Analytics.rush db_cities) <= 24)%nat.
Proof.
  apply (rush_at_most_24_rows db_cities).
  repeat constructor; discriminate.
Defined.

(** * What does and what does not depend on the scan order *)

Lemma NoDup_keys_inj {K B} (l : list (K * B)) k a b :
  NoDup l.*1 -> (k, a) ∈ l -> (k, b) ∈ l -> a = b.
Proof.
  induction l as [|[k' c] l IH]; intros Hnd Ha Hb; [by apply elem_of_nil in Ha|].
  rewrite fmap_cons in Hnd. apply NoDup_cons in Hnd as [Hk Hnd].
  apply elem_of_cons in Ha as [Ha|Ha]; apply elem_of_cons in Hb as [Hb|Hb];
    simplify_eq.
  - done.
  - destruct Hk. apply list_elem_of_fmap. by exists (k', b).
  - destruct Hk. apply list_elem_of_fmap. by exists (k', a).
  - by apply IH.
Qed.

Lemma group_sum1_NoDup `{EqDecision K} (key : trip -> K) rows :
  NoDup (Api.group_sum1 key rows).
Proof. eapply NoDup_fmap_1, group_sum1_keys. Qed.

(** The groups of two scans of the same trips are the same, up to order. *)
Lemma group_sum1_perm `{EqDecision K} (key : trip -> K) (db db' : list trip) :
  db ≡ₚ db' -> Api.group_sum1 key db ≡ₚ Api.group_sum1 key db'.
Proof.
  intros Hp. apply NoDup_Permutation; [apply group_sum1_NoDup..|].
  intros [k n]. rewrite !group_sum1_spec. by rewrite Hp.
Qed.

Lemma string_le_trans :
  Transitive (fun a b : string * nat => String.leb a.1 b.1 = true).
Proof.
  intros x y z Hxy Hyz. apply Is_true_true. apply Is_true_true in Hxy, Hyz.
  exact (transitivity (R:=String.le) Hxy Hyz).
Qed.

(** The daily and hourly rows depend on the trips only, not on the order in
    which the store yields them nor on the order in which the engine emits
    the groups: two scans of the same trips give the same rows, and so does
    sorting the groups from any order. *)
Theorem daily_rush_scan_order_independent (db db' : list trip) :
  db ≡ₚ db' ->
  Analytics.daily db = Analytics.daily db' /\
  Analytics.rush db = Analytics.rush db' /\
  (forall g, g ≡ₚ Api.group_sum1 date db ->
     sort_by (asc String.leb fst) g = Api.daily_rows db) /\
  (forall g, g ≡ₚ Api.group_sum1 hour db ->
     sort_by (asc Z.leb fst) g = Api.hourly_rows db).
Proof.
  intros Hp.
  assert (Hdaily : forall g g' : list (string * nat),
    NoDup g.*1 -> g ≡ₚ g' ->
    sort_by (asc String.leb fst) g = sort_by (asc String.leb fst) g').
  { intros g g' Hnd Hg.
    apply (@Sorted_unique_strong _ (fun a b => String.leb a.1 b.1 = true)
             string_le_trans).
    - intros [k a] [k' b] Hx Hy Hle Hge. simpl in *.
      assert (k = k') as <- by (by apply String.leb_antisym).
      f_equal. apply elem_of_sort_by in Hx, Hy. rewrite <- Hg in Hy.
      by apply (NoDup_keys_inj g k).
    - apply (sort_by_sorted (asc String.leb fst)), asc_total, string_leb_total.
    - apply (sort_by_sorted (asc String.leb fst)), asc_total, string_leb_total.
    - by rewrite !sort_by_perm. }
  assert (Hrush : forall g g' : list (Z * nat),
    NoDup g.*1 -> g ≡ₚ g' ->
    sort_by (asc Z.leb fst) g = sort_by (asc Z.leb fst) g').
  { intros g g' Hnd Hg.
    assert (Htr : Transitive (fun a b : Z * nat => Z.leb a.1 b.1 = true)).
    { intros x y z Hxy%Z.leb_le Hyz%Z.leb_le. apply Z.leb_le. lia. }
    apply (@Sorted_unique_strong _ (fun a b => Z.leb a.1 b.1 = true) Htr).
    - intros [k a] [k' b] Hx Hy Hle%Z.leb_le Hge%Z.leb_le. simpl in *.
      assert (k = k') as <- by lia.
      f_equal. apply elem_of_sort_by in Hx, Hy. rewrite <- Hg in Hy.
      by apply (NoDup_keys_inj g k).
    - apply (sort_by_sorted (asc Z.leb fst)), asc_total, Z_leb_total.
    - apply (sort_by_sorted (asc Z.leb fst)), asc_total, Z_leb_total.
    - by rewrite !sort_by_perm. }
  split; [|split; [|split]].
  - apply Hdaily; [apply group_sum1_keys|by apply group_sum1_perm].
  - apply Hrush; [apply group_sum1_keys|by apply group_sum1_perm].
  - intros g Hg. symmetry. apply Hdaily; [apply group_sum1_keys|done].
  - intros g Hg. symmetry. apply Hrush; [apply group_sum1_keys|done].
Qed.

(** The trips of [db_two_cities], scanned in the two orders. *)
Lemma daily_rush_scan_order_witness :
  Analytics.daily db_two_cities = Analytics.daily (reverse db_two_cities).
Proof.
  assert (Hp : db_two_cities ≡ₚ reverse db_two_cities)
    by (symmetry; apply reverse_Permutation).
  destruct (daily_rush_scan_order_independent _ _ Hp) as [H _]. exact H.
Defined.

(** The trip_count column of [/top-zones] depends on the trips only: two
    scans of the same trips give the same sequence of counts, truncated or
    not, though the zones that share a count may come in another order. *)
Theorem top_zones_counts_scan_order_independent (db db' : list trip) (n : nat) :
  db ≡ₚ db' ->
  (take n (Analytics.top_zones db)).*2 = (take n (Analytics.top_zones db')).*2.
Proof.
  intros Hp. rewrite !fmap_take. f_equal.
  assert (Htr : Transitive (fun a b : nat => (b <= a)%nat))
    by (intros x y z; lia).
  apply (@Sorted_unique_strong _ (fun a b : nat => (b <= a)%nat) Htr).
  - intros x y _ _. lia.
  - eapply Sorted_fmap; [|apply top_zones_sorted]. by intros x y.
  - eapply Sorted_fmap; [|apply top_zones_sorted]. by intros x y.
  - unfold Analytics.top_zones. rewrite !sort_by_perm.
    apply fmap_Permutation. by apply (group_sum1_perm zone_start).
Qed.

(** The three zones of [db_zones], scanned in the two orders. *)
Lemma top_zones_counts_witness :
  (take 2 (Analytics.top_zones db_zones)).*2
  = (take 2 (Analytics.top_zones (reverse db_zones))).*2.
Proof.
  assert (Hp : db_zones ≡ₚ reverse db_zones)
    by (symmetry; apply reverse_Permutation).
  exact (top_zones_counts_scan_order_independent _ _ 2 Hp).
Defined.

(** The first row of the ranking is a zone where the most trips start: no
    zone has more trips than it, and [/top-zones] with limit 1 returns that
    row alone. *)
Theorem top_zone_is_maximal (df : list trip) :
  df <> [] ->
  exists z n,
    Api.top_zones (spark_output df) df 1 = Return (JArr [Analytics.zone_row (z, n)]) /\
    Api.top_zones no_artifacts df 1 = Return (JArr [Api.zone_doc (z, n)]) /\
    n = length (filter (fun t => zone_start t = z) df) /\
    forall z', (length (filter (fun t => zone_start t = z') df) <= n)%nat.
Proof.
  intros Hne.
  destruct (Analytics.top_zones df) as [|[z n] rest] eqn:Htop.
  { exfalso. apply Hne. destruct df as [|t df]; [done|].
    assert ((zone_start t, length (filter (fun x => zone_start x = zone_start t) (t :: df)))
            ∈ Analytics.top_zones (t :: df)) as Hin.
    { apply top_zones_spec. split; [|done]. rewrite filter_cons_True by done.
      simpl. lia. }
    rewrite Htop in Hin. by apply elem_of_nil in Hin. }
  exists z, n.
  assert (Hz : (z, n) ∈ Analytics.top_zones df) by (rewrite Htop; left).
  apply top_zones_spec in Hz as [Hpos Hn].
  split; [|split; [|split; [done|]]].
  - unfold Api.top_zones. simpl. unfold Analytics.zones_list. by rewrite Htop.
  - unfold Api.top_zones, Api.top_zones_rows. simpl.
    change (sort_by (desc Nat.leb snd) (Api.group_sum1 zone_start df))
      with (Analytics.top_zones df).
    by rewrite Htop.
  - intros z'.
    destruct (decide (0 < length (filter (fun t => zone_start t = z') df))%nat)
      as [Hpos'|]; [|lia].
    assert (Hin : (z', length (filter (fun t => zone_start t = z') df))
                  ∈ Analytics.top_zones df) by (by apply top_zones_spec).
    pose proof (top_zones_sorted df) as Hs.
    assert (Htr : Transitive (@count_desc string))
      by (intros a b c; unfold count_desc; lia).
    apply (@Sorted_StronglySorted _ _ Htr) in Hs.
    rewrite Htop in Hs, Hin. apply StronglySorted_inv in Hs as [_ Hall].
    apply elem_of_cons in Hin as [[= <- <-]|Hin]; [lia|].
    rewrite Forall_forall in Hall. apply (Hall _ Hin).
Qed.

(** The two zones of maximal count in [db_zones] aside, the first row of its
    ranking is one of them. *)
Lemma top_zone_is_maximal_witness :
  exists z n,
    Api.top_zones (spark_output db_zones) db_zones 1
      = Return (JArr [Analytics.zone_row (z, n)]) /\
    forall z', (length (filter (fun t => zone_start t = z') db_zones) <= n)%nat.
Proof.
  destruct (top_zone_is_maximal db_zones ltac:(discriminate))
    as (z & n & H1 & _ & _ & H4).
  exists z, n. split; [exact H1|exact H4].
Defined.

(** * Stale artifacts *)

Lemma remove_dups_nonempty `{EqDecision K} (l : list K) :
  l <> [] -> remove_dups l <> [].
Proof.
  destruct l as [|x l]; [done|]. intros _ Hnil.
  assert (x ∈ remove_dups (x :: l)) as Hin by (apply elem_of_remove_dups; left).
  rewrite Hnil in Hin. by apply elem_of_nil in Hin.
Qed.

Lemma artifact_rows_nonempty `{EqDecision K} {B} (key : trip -> K)
    (h : K * list trip -> B) (le : B -> B -> bool) (row : B -> json) df :
  df <> [] -> truthy (JArr (row <$> sort_by le (h <$> group_by key df))) = true.
Proof.
  intros Hne.
  destruct (row <$> sort_by le (h <$> group_by key df)) as [|r rs] eqn:E; [|done].
  exfalso. apply fmap_nil_inv in E.
  assert (Hg : h <$> group_by key df = []).
  { apply Permutation_nil_r. rewrite <- E. by rewrite sort_by_perm. }
  apply fmap_nil_inv in Hg. unfold group_by in Hg. apply fmap_nil_inv in Hg.
  apply (remove_dups_nonempty (key <$> df)); [|done].
  intros Hk. by apply fmap_nil_inv in Hk.
Qed.

(** Once the Spark job has run over a collection that is not empty, a request
    without a city filter is answered from that snapshot alone: the answer is
    the same whatever the Record Store holds at the time of the request. *)
Theorem artifact_answers_ignore_the_store (snap db db' : list trip)
    (r : Api.request) :
  snap <> [] ->
  unfiltered r = true ->
  Api.serve (spark_output snap) db r = Api.serve (spark_output snap) db' r.
Proof.
  intros Hne Hr.
  assert (Hd : truthy (JArr (Analytics.daily_list snap)) = true)
    by (by apply (artifact_rows_nonempty date)).
  assert (Hh : truthy (JArr (Analytics.rush_list snap)) = true)
    by (by apply (artifact_rows_nonempty hour)).
  assert (Ha : truthy (JArr (Analytics.avg_list snap)) = true)
    by (by apply (artifact_rows_nonempty city)).
  assert (Hz : truthy (JArr (Analytics.zones_list snap)) = true)
    by (by apply (artifact_rows_nonempty zone_start)).
  assert (Hw : truthy (JArr (Analytics.day_list snap)) = true)
    by (by apply (artifact_rows_nonempty (fun t => (city t, day_of_week t)))).
  destruct r as [c|c| |limit|]; simpl in Hr; unfold Api.serve.
  - apply negb_true_iff in Hr. unfold Api.daily_stats.
    change (Api.load_spark_result (spark_output snap) "daily.json")
      with (Return (JArr (Analytics.daily_list snap))).
    unfold bind. by rewrite Hd, Hr.
  - apply negb_true_iff in Hr. unfold Api.hourly_stats.
    change (Api.load_spark_result (spark_output snap) "rush_hours.json")
      with (Return (JArr (Analytics.rush_list snap))).
    unfold bind. by rewrite Hh, Hr.
  - unfold Api.cities_stats.
    change (Api.load_spark_result (spark_output snap) "avg_distance.json")
      with (Return (JArr (Analytics.avg_list snap))).
    unfold bind. by rewrite Ha.
  - unfold Api.top_zones_query, Api.top_zones.
    change (Api.load_spark_result (spark_output snap) "top_zones.json")
      with (Return (JArr (Analytics.zones_list snap))).
    unfold bind. by rewrite Hz.
  - unfold Api.weekday_stats.
    change (Api.load_spark_result (spark_output snap) "by_day_of_week.json")
      with (Return (JArr (Analytics.day_list snap))).
    unfold bind. by rewrite Hw.
Qed.

(** The artifacts of [db_cities], asked for the top zones once the store has
    been emptied. *)
Lemma artifact_answers_witness :
  Api.serve (spark_output db_cities) [] (Api.GetTopZones None)
  = Api.serve (spark_output db_cities) db_zones (Api.GetTopZones None).
Proof.
  apply (artifact_answers_ignore_the_store db_cities [] db_zones).
  - discriminate.
  - reflexivity.
Defined.

(** * More on the ingestion run *)

Lemma filter_fmap_length {A B} (f : A -> B) (P : B -> Prop)
    `{!forall y, Decision (P y)} (l : list A) :
  length (filter P (f <$> l)) = length (filter (fun x => P (f x)) l).
Proof.
  induction l as [|x l IH]; [done|]. rewrite fmap_cons, !filter_cons.
  destruct (decide (P (f x))); simpl; by rewrite IH.
Qed.

Lemma counter_incr_lookup_None `{Countable K} (k k' : K) (m : gmap K nat) :
  counter_incr k' m !! k = None <-> m !! k = None /\ k' <> k.
Proof.
  unfold counter_incr. destruct (decide (k' = k)) as [->|Hne].
  - rewrite lookup_insert_eq. split; [done|]. by intros [_ ?].
  - rewrite lookup_insert_ne by done. tauto.
Qed.

Lemma loop_by_zone_None B ss st c z :
  trips_by_zone (Generator.st_stores (fold_left (Generator.loop_body B) ss st))
    !! (c, z) = None <->
  trips_by_zone (Generator.st_stores st) !! (c, z) = None /\
  Forall (fun s => (Generator.s_city s, Generator.s_zone_start s) <> (c, z)) ss.
Proof.
  revert st. induction ss as [|s ss IH]; intros st; simpl.
  - split; [by intros ?; split|by intros [? _]].
  - rewrite IH, body_by_zone, counter_incr_lookup_None, Forall_cons. tauto.
Qed.

Lemma loop_by_hour_None B ss st c d h :
  trips_by_hour (Generator.st_stores (fold_left (Generator.loop_body B) ss st))
    !! (c, d, h) = None <->
  trips_by_hour (Generator.st_stores st) !! (c, d, h) = None /\
  Forall (fun s => (Generator.s_city s, Datetime.strftime_Ymd (Generator.s_ts s),
                    Datetime.hour (Generator.s_ts s)) <> (c, d, h)) ss.
Proof.
  revert st. induction ss as [|s ss IH]; intros st; simpl.
  - split; [by intros ?; split|by intros [? _]].
  - rewrite IH, body_by_hour, counter_incr_lookup_None, Forall_cons. tauto.
Qed.

(** A run is not additive: whatever the three stores held before, the run
    ends in the same state, and the counter tables hold a row exactly for the
    buckets of the trips the run generated. *)
Theorem run_forgets_previous_state (draw : nat -> Generator.sample) (N B : Z)
    (s0 s0' : stores) :
  Generator.run draw N B s0 = Generator.run draw N B s0' /\
  (forall c z,
     trips_by_zone (Generator.st_stores (Generator.run draw N B s0)) !! (c, z) = None <->
     Forall (fun s => (Generator.s_city s, Generator.s_zone_start s) <> (c, z))
            (Generator.samples draw N)) /\
  (forall c d h,
     trips_by_hour (Generator.st_stores (Generator.run draw N B s0)) !! (c, d, h) = None <->
     Forall (fun s => (Generator.s_city s, Datetime.strftime_Ymd (Generator.s_ts s),
                       Datetime.hour (Generator.s_ts s)) <> (c, d, h))
            (Generator.samples draw N)).
Proof.
  split; [done|]. split.
  - intros c z. unfold Generator.run. rewrite flush_by_zone, loop_by_zone_None.
    simpl. rewrite lookup_empty. tauto.
  - intros c d h. unfold Generator.run. rewrite flush_by_hour, loop_by_hour_None.
    simpl. rewrite lookup_empty. tauto.
Qed.

(** After a complete run the Counter Store agrees with the Record Store:
    each zone bucket holds the number of stored trips with its city and
    zone_start, each hour bucket the number of stored trips with its city,
    date and hour. *)
Theorem counters_agree_with_collection (draw : nat -> Generator.sample)
    (N B : Z) (s0 : stores) :
  let S := Generator.st_stores (Generator.run draw N B s0) in
  (forall c z, counter_read (c, z) (trips_by_zone S)
     = length (filter (fun t => (city t, zone_start t) = (c, z)) (collection S))) /\
  (forall c d h, counter_read (c, d, h) (trips_by_hour S)
     = length (filter (fun t => (city t, date t, hour t) = (c, d, h)) (collection S))).
Proof.
  intros S. unfold S. rewrite run_collection. split.
  - intros c z. unfold Generator.run. rewrite flush_by_zone, loop_by_zone.
    rewrite (filter_fmap_length Generator.mk_trip). simpl.
    unfold counter_read. by rewrite lookup_empty.
  - intros c d h. unfold Generator.run. rewrite flush_by_hour, loop_by_hour.
    rewrite (filter_fmap_length Generator.mk_trip). simpl.
    unfold counter_read. by rewrite lookup_empty.
Qed.

(** At every iteration boundary of the loop the counters are ahead of the
    collection by the pending batch and by nothing else: each bucket counts
    the trips of the collection and of the batch together, which are the
    trips generated so far, and for a positive batch size fewer than that
    many trips are pending. *)
Theorem loop_counters_lead_by_the_batch (draw : nat -> Generator.sample)
    (N B : Z) (s0 : stores) (k : nat) :
  let st := Generator.after draw N B s0 k in
  let S := Generator.st_stores st in
  collection S ++ Generator.batch_docs st
    = Generator.mk_trip <$> take k (Generator.samples draw N) /\
  (forall c z, counter_read (c, z) (trips_by_zone S)
     = length (filter (fun t => (city t, zone_start t) = (c, z))
                      (collection S ++ Generator.batch_docs st))) /\
  (forall c d h, counter_read (c, d, h) (trips_by_hour S)
     = length (filter (fun t => (city t, date t, hour t) = (c, d, h))
                      (collection S ++ Generator.batch_docs st))) /\
  (0 < B -> Z.of_nat (length (Generator.batch_docs st)) < B).
Proof.
  intros st S.
  assert (Hcol : collection S ++ Generator.batch_docs st
                 = Generator.mk_trip <$> take k (Generator.samples draw N)).
  { unfold S, st, Generator.after.
    by rewrite (loop_collection B (take k (Generator.samples draw N))
                  (Generator.reset s0)). }
  split; [done|]. rewrite Hcol. split; [|split].
  - intros c z. unfold S, st, Generator.after. rewrite loop_by_zone.
    rewrite (filter_fmap_length Generator.mk_trip). simpl.
    unfold counter_read. by rewrite lookup_empty.
  - intros c d h. unfold S, st, Generator.after. rewrite loop_by_hour.
    rewrite (filter_fmap_length Generator.mk_trip). simpl.
    unfold counter_read. by rewrite lookup_empty.
  - unfold st, Generator.after.
    apply (loop_bulk_sizes B (take k (Generator.samples draw N)) (Generator.reset s0));
      [constructor|simpl; lia].
Qed.

Lemma concat_same_length {A} (ws : list (list A)) (n : nat) :
  Forall (fun w => length w = n) ws -> length (concat ws) = (length ws * n)%nat.
Proof.
  induction 1 as [|w ws Hw Hws IH]; [done|]. simpl. rewrite length_app, IH. lia.
Qed.

(** The number of [insert_many] calls of a run: for a positive batch size B,
    N trips go out in ceil(N / B) bulk writes; for a batch size that is not
    positive the test of line 94 never holds and the N trips go out in one
    write at the end. *)
Theorem run_number_of_bulk_writes (draw : nat -> Generator.sample) (N B : Z)
    (s0 : stores) :
  Z.of_nat (length (Generator.bulk_writes (Generator.run draw N B s0)))
  = if 0 <? B then (Z.max 0 N + B - 1) / B
    else if 0 <? N then 1 else 0.
Proof.
  set (ss := Generator.samples draw N).
  set (st1 := fold_left (Generator.loop_body B) ss (Generator.reset s0)).
  destruct (loop_bulk_sizes B ss (Generator.reset s0))
    as [Hsz Hb]; [constructor|simpl; lia|]. fold st1 in Hsz, Hb.
  pose proof (loop_bulk_concat B ss (Generator.reset s0) eq_refl) as Hcat.
  pose proof (loop_collection B ss (Generator.reset s0)) as Hcol.
  pose proof (loop_bulk_nonempty B ss (Generator.reset s0) (Forall_nil_2 _)) as Hne.
  fold st1 in Hcat, Hcol, Hne. simpl in Hcat, Hcol.
  assert (Hlen : (length (concat (Generator.bulk_writes st1))
                  + length (Generator.batch_docs st1))%nat = Z.to_nat N).
  { rewrite <- Hcat, <- length_app, Hcol. simpl.
    unfold ss. by rewrite length_fmap, samples_length. }
  assert (Hrun : Generator.bulk_writes (Generator.run draw N B s0)
                 = match Generator.batch_docs st1 with
                   | [] => Generator.bulk_writes st1
                   | _ => Generator.bulk_writes st1 ++ [Generator.batch_docs st1]
                   end) by apply flush_bulk.
  rewrite Hrun. clear Hrun.
  destruct (0 <? B) eqn:HB.
  - apply Z.ltb_lt in HB. specialize (Hb HB).
    rewrite (concat_same_length _ (Z.to_nat B)) in Hlen.
    2:{ eapply Forall_impl; [exact Hsz|]. intros w Hw. simpl in Hw. lia. }
    remember (Generator.bulk_writes st1) as ws eqn:Hws.
    remember (Generator.batch_docs st1) as bd eqn:Hbd.
    clear Hws Hbd Hsz Hne Hcat Hcol.
    destruct bd as [|t bd]; simpl in *.
    + apply Z.div_unique with (r := B - 1); nia.
    + rewrite length_app. simpl.
      apply Z.div_unique with (r := Z.of_nat (length bd)); nia.
  - apply Z.ltb_ge in HB.
    assert (Hnil : Generator.bulk_writes st1 = []).
    { destruct (Generator.bulk_writes st1) as [|w ws]; [done|]. exfalso.
      apply Forall_cons in Hsz as [Hw _]. apply Forall_cons in Hne as [Hw' _].
      destruct w; [done|]. simpl in Hw. lia. }
    rewrite Hnil in *. simpl in Hlen.
    destruct (Generator.batch_docs st1) as [|t b]; simpl in *.
    + destruct (0 <? N) eqn:HN; [apply Z.ltb_lt in HN; lia|done].
    + destruct (0 <? N) eqn:HN; [done|apply Z.ltb_ge in HN; lia].
Qed.

(** * Date strings and day names *)

Lemma digit_code (n : Z) :
  N_of_ascii (Datetime.digit n) = (48 + Z.to_N (n mod 10))%N.
Proof.
  unfold Datetime.digit.
  assert (H : 0 <= n mod 10 < 10) by (apply Z.mod_pos_bound; lia).
  assert (Hc : n mod 10 = 0 \/ n mod 10 = 1 \/ n mod 10 = 2 \/ n mod 10 = 3 \/
               n mod 10 = 4 \/ n mod 10 = 5 \/ n mod 10 = 6 \/ n mod 10 = 7 \/
               n mod 10 = 8 \/ n mod 10 = 9) by lia.
  destruct Hc as [-> | [-> | [-> | [-> | [-> | [-> | [-> | [-> | [-> | ->]]]]]]]]];
    reflexivity.
Qed.

Lemma digit_mod (x y : Z) : x mod 10 = y mod 10 -> Datetime.digit x = Datetime.digit y.
Proof. unfold Datetime.digit. by intros ->. Qed.

Lemma compare_digit (x y : Z) (s t : string) :
  String.compare (String (Datetime.digit x) s) (String (Datetime.digit y) t)
  = match x mod 10 ?= y mod 10 with
    | Eq => String.compare s t
    | r => r
    end.
Proof.
  cbn [String.compare]. unfold Ascii.compare. rewrite !digit_code.
  assert (Hx : 0 <= x mod 10 < 10) by (apply Z.mod_pos_bound; lia).
  assert (Hy : 0 <= y mod 10 < 10) by (apply Z.mod_pos_bound; lia).
  assert (Hc : (48 + Z.to_N (x mod 10) ?= 48 + Z.to_N (y mod 10))%N
               = (x mod 10 ?= y mod 10)).
  { destruct (Z.compare_spec (x mod 10) (y mod 10)) as [Heq|Hlt|Hgt].
    - rewrite Heq. apply N.compare_refl.
    - apply N.compare_lt_iff. lia.
    - apply N.compare_gt_iff. lia. }
  by rewrite Hc.
Qed.

Lemma compare_dec2 (a b : Z) (s t : string) :
  0 <= a <= 99 -> 0 <= b <= 99 ->
  String.compare (Datetime.dec2 a +:+ s) (Datetime.dec2 b +:+ t)
  = match a ?= b with
    | Eq => String.compare s t
    | r => r
    end.
Proof.
  intros Ha Hb.
  change (Datetime.dec2 a +:+ s)
    with (String (Datetime.digit (a / 10)) (String (Datetime.digit a) s)).
  change (Datetime.dec2 b +:+ t)
    with (String (Datetime.digit (b / 10)) (String (Datetime.digit b) t)).
  rewrite !compare_digit.
  rewrite (Z.mod_small (a / 10)), (Z.mod_small (b / 10))
    by (split; [apply Z.div_pos; lia|apply Z.div_lt_upper_bound; lia]).
  pose proof (Z.div_mod a 10 ltac:(lia)) as Da.
  pose proof (Z.div_mod b 10 ltac:(lia)) as Db.
  pose proof (Z.mod_pos_bound a 10 ltac:(lia)) as Ma.
  pose proof (Z.mod_pos_bound b 10 ltac:(lia)) as Mb.
  generalize dependent (a / 10). generalize dependent (b / 10).
  generalize dependent (a mod 10). generalize dependent (b mod 10).
  intros b0 Hb0 a0 Ha0 b1 Db a1 Da.
  destruct (Z.compare_spec a1 b1) as [E1|E1|E1];
  destruct (Z.compare_spec a0 b0) as [E2|E2|E2];
  destruct (Z.compare_spec a b) as [E|E|E]; try reflexivity; exfalso; lia.
Qed.

Lemma compare_dec4 (a b : Z) (s t : string) :
  0 <= a <= 9999 -> 0 <= b <= 9999 ->
  String.compare (Datetime.dec4 a +:+ s) (Datetime.dec4 b +:+ t)
  = match a ?= b with
    | Eq => String.compare s t
    | r => r
    end.
Proof.
  intros Ha Hb.
  assert (Hsplit : forall n u, 0 <= n <= 9999 ->
    Datetime.dec4 n +:+ u
    = Datetime.dec2 (n / 100) +:+ (Datetime.dec2 (n mod 100) +:+ u)).
  { intros n u Hn.
    change (Datetime.dec4 n +:+ u)
      with (String (Datetime.digit (n / 1000)) (String (Datetime.digit (n / 100))
             (String (Datetime.digit (n / 10)) (String (Datetime.digit n) u)))).
    change (Datetime.dec2 (n / 100) +:+ (Datetime.dec2 (n mod 100) +:+ u))
      with (String (Datetime.digit (n / 100 / 10)) (String (Datetime.digit (n / 100))
             (String (Datetime.digit (n mod 100 / 10))
                (String (Datetime.digit (n mod 100)) u)))).
    f_equal; [apply digit_mod; by rewrite Z.div_div by lia|].
    f_equal. f_equal; [apply digit_mod|f_equal; apply digit_mod].
    - pose proof (Z.div_mod n 100 ltac:(lia)).
      pose proof (Z.mod_pos_bound n 100 ltac:(lia)).
      pose proof (Z.div_mod (n mod 100) 10 ltac:(lia)).
      pose proof (Z.mod_pos_bound (n mod 100) 10 ltac:(lia)).
      assert (n / 10 = (n mod 100) / 10 + (n / 100) * 10) as ->.
      { symmetry. apply Z.div_unique with (r := (n mod 100) mod 10); lia. }
      apply Z_mod_plus_full.
    - rewrite (Z.div_mod n 100) at 1 by lia.
      replace (100 * (n / 100) + n mod 100)
        with (n mod 100 + (10 * (n / 100)) * 10) by lia.
      apply Z_mod_plus_full. }
  rewrite !Hsplit by done.
  rewrite compare_dec2
    by (split; [apply Z.div_pos; lia|apply Z.lt_succ_r, Z.div_lt_upper_bound; lia]).
  rewrite compare_dec2
    by (pose proof (Z.mod_pos_bound a 100 ltac:(lia));
        pose proof (Z.mod_pos_bound b 100 ltac:(lia)); lia).
  pose proof (Z.div_mod a 100 ltac:(lia)) as Da.
  pose proof (Z.div_mod b 100 ltac:(lia)) as Db.
  pose proof (Z.mod_pos_bound a 100 ltac:(lia)) as Ma.
  pose proof (Z.mod_pos_bound b 100 ltac:(lia)) as Mb.
  generalize dependent (a / 100). generalize dependent (b / 100).
  generalize dependent (a mod 100). generalize dependent (b mod 100).
  intros b0 Hb0 a0 Ha0 b1 Db a1 Da.
  destruct (Z.compare_spec a1 b1) as [E1|E1|E1];
  destruct (Z.compare_spec a0 b0) as [E2|E2|E2];
  destruct (Z.compare_spec a b) as [E|E|E]; try reflexivity; exfalso; lia.
Qed.

Lemma string_compare_refl (s : string) : String.compare s s = Eq.
Proof.
  pose proof (String.compare_antisym s s) as H.
  destruct (String.compare s s); [done|discriminate..].
Qed.

Lemma days_in_month_le_31 (y m : Z) : Datetime.days_in_month y m <= 31.
Proof.
  unfold Datetime.days_in_month.
  destruct ((m =? 2) && Datetime.is_leap y); [lia|].
  destruct (Z.to_nat m) as [|[|[|[|[|[|[|[|[|[|[|[|[|n]]]]]]]]]]]]]; simpl; try lia.
  destruct n; simpl; lia.
Qed.

Lemma valid_ranges (d : Datetime.datetime) :
  Datetime.valid d ->
  0 <= Datetime.year d <= 9999 /\ 0 <= Datetime.month d <= 99 /\
  0 <= Datetime.day d <= 99.
Proof.
  intros (Hy & Hm & Hd & _).
  pose proof (days_in_month_le_31 (Datetime.year d) (Datetime.month d)). lia.
Qed.

Lemma dec_four_digits (y : Z) : 1000 <= y -> Datetime.dec y = Datetime.dec4 y.
Proof.
  intros Hy. unfold Datetime.dec.
  destruct (y <? 10) eqn:E1; [apply Z.ltb_lt in E1; lia|].
  destruct (y <? 100) eqn:E2; [apply Z.ltb_lt in E2; lia|].
  destruct (y <? 1000) eqn:E3; [apply Z.ltb_lt in E3; lia|done].
Qed.

Lemma strftime_Ymd_compare (d1 d2 : Datetime.datetime) :
  Datetime.valid d1 -> Datetime.valid d2 ->
  1000 <= Datetime.year d1 -> 1000 <= Datetime.year d2 ->
  String.compare (Datetime.strftime_Ymd d1) (Datetime.strftime_Ymd d2)
    = date_compare d1 d2.
Proof.
  intros (Hy1 & Hm1 & Hd1)%valid_ranges (Hy2 & Hm2 & Hd2)%valid_ranges Y1 Y2.
  unfold Datetime.strftime_Ymd, date_compare.
  rewrite !dec_four_digits by done.
  rewrite compare_dec4 by done.
  destruct (Datetime.year d1 ?= Datetime.year d2); [|done..].
  change ("-" +:+ ?s) with (String "-"%char s).
  cbn [String.compare]. change (Ascii.compare "-" "-") with Eq. cbv iota.
  rewrite compare_dec2 by done.
  destruct (Datetime.month d1 ?= Datetime.month d2); [|done..].
  change ("-" +:+ ?s) with (String "-"%char s).
  cbn [String.compare]. change (Ascii.compare "-" "-") with Eq. cbv iota.
  change (Datetime.dec2 (Datetime.day d1))
    with (Datetime.dec2 (Datetime.day d1) +:+ "").
  change (Datetime.dec2 (Datetime.day d2))
    with (Datetime.dec2 (Datetime.day d2) +:+ "").
  rewrite compare_dec2 by done.
  by destruct (Datetime.day d1 ?= Datetime.day d2).
Qed.

Lemma strftime_Ymd_same_day (d1 d2 : Datetime.datetime) :
  Datetime.valid d1 -> Datetime.valid d2 ->
  1000 <= Datetime.year d1 -> 1000 <= Datetime.year d2 ->
  Datetime.strftime_Ymd d1 = Datetime.strftime_Ymd d2 <->
  Datetime.year d1 = Datetime.year d2 /\
  Datetime.month d1 = Datetime.month d2 /\
  Datetime.day d1 = Datetime.day d2.
Proof.
  intros V1 V2 Y1 Y2.
  pose proof (strftime_Ymd_compare d1 d2 V1 V2 Y1 Y2) as Hcmp. split.
  - intros E. rewrite E, string_compare_refl in Hcmp. unfold date_compare in Hcmp.
    destruct (Z.compare_spec (Datetime.year d1) (Datetime.year d2));
      [|discriminate..].
    destruct (Z.compare_spec (Datetime.month d1) (Datetime.month d2));
      [|discriminate..].
    destruct (Z.compare_spec (Datetime.day d1) (Datetime.day d2));
      [done|discriminate..].
  - intros (Ey & Em & Ed). apply String.compare_eq_iff. rewrite Hcmp.
    unfold date_compare. by rewrite Ey, Em, Ed, !Z.compare_refl.
Qed.

Lemma same_day_same_name (d1 d2 : Datetime.datetime) :
  Datetime.valid d1 -> Datetime.valid d2 ->
  1000 <= Datetime.year d1 -> 1000 <= Datetime.year d2 ->
  Datetime.strftime_Ymd d1 = Datetime.strftime_Ymd d2 ->
  Datetime.strftime_A d1 = Datetime.strftime_A d2.
Proof.
  intros V1 V2 Y1 Y2 (Ey & Em & Ed)%strftime_Ymd_same_day; [|done..].
  unfold Datetime.strftime_A, Datetime.weekday, Datetime.toordinal.
  by rewrite Ey, Em, Ed.
Qed.

(** The calendar-day strings of two valid timestamps from the year 1000 on
    compare, as strings, the way the days themselves do: with a year of four
    digits [%Y-%m-%d] turns chronological order into string order, so two
    timestamps get the same string exactly when they fall on the same day,
    and then they get the same day name.  (An earlier year is printed with
    fewer digits, and its string sorts after those of later years.) *)
Theorem date_string_order (d1 d2 : Datetime.datetime) :
  Datetime.valid d1 -> Datetime.valid d2 ->
  1000 <= Datetime.year d1 -> 1000 <= Datetime.year d2 ->
  String.compare (Datetime.strftime_Ymd d1) (Datetime.strftime_Ymd d2)
    = date_compare d1 d2 /\
  (Datetime.strftime_Ymd d1 = Datetime.strftime_Ymd d2 <->
     Datetime.year d1 = Datetime.year d2 /\
     Datetime.month d1 = Datetime.month d2 /\
     Datetime.day d1 = Datetime.day d2) /\
  (Datetime.strftime_Ymd d1 = Datetime.strftime_Ymd d2 ->
     Datetime.strftime_A d1 = Datetime.strftime_A d2).
Proof.
  intros V1 V2 Y1 Y2. split; [by apply strftime_Ymd_compare|].
  split; [by apply strftime_Ymd_same_day|by apply same_day_same_name].
Qed.

(** New Year's Eve of 2025 against [ts0]. *)
Lemma date_string_order_witness :
  String.compare
    (Datetime.strftime_Ymd
       {| Datetime.year := 2025; Datetime.month := 12; Datetime.day := 31;
          Datetime.hour := 23; Datetime.minute := 59; Datetime.second := 0;
          Datetime.microsecond := 0 |})
    (Datetime.strftime_Ymd ts0) = Lt.
Proof.
  refine (proj1 (date_string_order
    {| Datetime.year := 2025; Datetime.month := 12; Datetime.day := 31;
       Datetime.hour := 23; Datetime.minute := 59; Datetime.second := 0;
       Datetime.microsecond := 0 |} ts0 _ _ _ _));
    vm_compute; repeat split; discriminate.
Defined.

Lemma StronglySorted_weaken {A} (R S : A -> A -> Prop) (l : list A) :
  (forall x y, R x y -> S x y) -> StronglySorted R l -> StronglySorted S l.
Proof.
  intros HRS. induction 1 as [|x l Hs IH Hall]; constructor; [done|].
  eapply Forall_impl; [exact Hall|]. auto.
Qed.

(** After a run whose timestamps are valid and of the year 1000 or later,
    the rows of the daily artifact are in chronological order: the trips of a
    row fall on an earlier day than the trips of any later row; and two trips
    with the same [date] have the same [day_of_week]. *)
Theorem daily_rows_are_chronological (draw : nat -> Generator.sample)
    (N B : Z) (s0 : stores) :
  (forall i, (i < Z.to_nat N)%nat ->
     Datetime.valid (Generator.s_ts (draw i)) /\
     1000 <= Datetime.year (Generator.s_ts (draw i))) ->
  let db := collection (Generator.st_stores (Generator.run draw N B s0)) in
  StronglySorted (earlier_day db) (Analytics.daily db) /\
  (forall t1 t2, t1 ∈ db -> t2 ∈ db -> date t1 = date t2 ->
     day_of_week t1 = day_of_week t2).
Proof.
  intros Hvalid db.
  assert (Hdb : forall t, t ∈ db ->
            (Datetime.valid (timestamp t) /\ 1000 <= Datetime.year (timestamp t)) /\
            date t = Datetime.strftime_Ymd (timestamp t) /\
            day_of_week t = Datetime.strftime_A (timestamp t)).
  { unfold db. rewrite run_collection. intros t Ht.
    apply list_elem_of_fmap in Ht as (s & -> & Hs).
    pose proof (samples_Forall
                  (fun s => Datetime.valid (Generator.s_ts s) /\
                            1000 <= Datetime.year (Generator.s_ts s))
                  draw N Hvalid) as Hall.
    rewrite Forall_forall in Hall. split; [by apply Hall|done]. }
  split.
  - eapply StronglySorted_weaken; [|apply daily_strongly_sorted].
    intros r1 r2 [Hle Hne] t1 t2 Ht1 Ht2 E1 E2.
    destruct (Hdb t1 Ht1) as ([V1 Y1] & D1 & _), (Hdb t2 Ht2) as ([V2 Y2] & D2 & _).
    rewrite <- (strftime_Ymd_compare _ _ V1 V2 Y1 Y2), <- D1, <- D2, E1, E2.
    unfold String.leb in Hle.
    destruct (String.compare r1.1 r2.1) eqn:Hc; [|done|done].
    by apply String.compare_eq_iff in Hc.
  - intros t1 t2 Ht1 Ht2 E.
    destruct (Hdb t1 Ht1) as ([V1 Y1] & D1 & W1), (Hdb t2 Ht2) as ([V2 Y2] & D2 & W2).
    rewrite W1, W2. apply same_day_same_name; [done..|]. by rewrite <- D1, <- D2.
Qed.

(** Three trips drawn at [ts0]. *)
Lemma daily_rows_are_chronological_witness :
  let db := collection (Generator.st_stores
              (Generator.run (fun _ => sample0 "Paris" "Zone A" 2) 3 2
                 {| collection := []; trips_by_hour := ∅; trips_by_zone := ∅ |})) in
  StronglySorted (earlier_day db) (Analytics.daily db).
Proof.
  assert (Hv : forall i : nat, (i < Z.to_nat 3)%nat ->
            Datetime.valid (Generator.s_ts (sample0 "Paris" "Zone A" 2)) /\
            1000 <= Datetime.year (Generator.s_ts (sample0 "Paris" "Zone A" 2)))
    by (intros i _; vm_compute; repeat split; discriminate).
  exact (proj1 (daily_rows_are_chronological
                  (fun _ => sample0 "Paris" "Zone A" 2) 3 2
                  {| collection := []; trips_by_hour := ∅; trips_by_zone := ∅ |}
                  Hv)).
Defined.

Lemma strftime_A_is_a_day (d : Datetime.datetime) :
  Datetime.strftime_A d ∈ Datetime.day_names.
Proof.
  unfold Datetime.strftime_A, Datetime.weekday.
  pose proof (Z.mod_pos_bound (Datetime.toordinal d + 6) 7 ltac:(lia)) as H.
  apply list_elem_of_In, nth_In. simpl. lia.
Qed.

(** Whatever the timestamps, the weekday of a stored trip is one of the seven
    English day names, so the by_day_of_week artifact has at most seven rows
    for a city. *)
Theorem weekday_rows_use_day_names (draw : nat -> Generator.sample)
    (N B : Z) (s0 : stores) (c : string) :
  let db := collection (Generator.st_stores (Generator.run draw N B s0)) in
  Forall (fun t => day_of_week t ∈ Datetime.day_names) db /\
  Forall (fun r => r.1.2 ∈ Datetime.day_names) (Analytics.by_day db) /\
  (length (filter (fun r => r.1.1 = c) (Analytics.by_day db)) <= 7)%nat.
Proof.
  intros db.
  assert (Hdb : Forall (fun t => day_of_week t ∈ Datetime.day_names) db).
  { unfold db. rewrite run_collection. apply Forall_fmap, Forall_forall.
    intros s _. apply strftime_A_is_a_day. }
  assert (Hrows : Forall (fun r => r.1.2 ∈ Datetime.day_names) (Analytics.by_day db)).
  { apply Forall_forall. intros [[c' w] n] Hin. simpl.
    apply elem_of_sort_by in Hin.
    apply (elem_of_group_sum1 (fun t => (city t, day_of_week t))) in Hin as [Hk _].
    apply list_elem_of_fmap in Hk as (t & [= -> ->] & Ht).
    rewrite Forall_forall in Hdb. by apply Hdb. }
  split; [done|]. split; [done|].
  set (rows := filter (fun r => r.1.1 = c) (Analytics.by_day db)).
  rewrite <- (length_fmap (fun r : string * string * nat => r.1.2) rows).
  change 7%nat with (length Datetime.day_names).
  apply submseteq_length, NoDup_submseteq.
  - apply NoDup_fmap_2_strong.
    + intros [[c1 w1] n1] [[c2 w2] n2] H1 H2 Hw. simpl in Hw. subst w2.
      apply list_elem_of_filter in H1 as [E1 H1], H2 as [E2 H2].
      simpl in E1, E2. subst c1 c2. f_equal.
      eapply NoDup_keys_inj; [|exact H1|exact H2].
      unfold Analytics.by_day. rewrite sort_by_perm.
      apply (group_sum1_keys (fun t => (city t, day_of_week t))).
    + apply NoDup_filter. eapply NoDup_fmap_1.
      unfold Analytics.by_day. rewrite sort_by_perm.
      apply (group_sum1_keys (fun t => (city t, day_of_week t))).
  - intros w Hw. apply list_elem_of_fmap in Hw as (r & -> & Hr).
    apply list_elem_of_filter in Hr as [_ Hr].
    rewrite Forall_forall in Hrows. by apply Hrows.
Qed.

(** * Counters against aggregates *)

Lemma counter_sum_zone (db : list trip) (z : string) (ks : list string) :
  NoDup ks -> (forall t, t ∈ db -> city t ∈ ks) ->
  sum_list ((fun c => length (filter (fun t => (city t, zone_start t) = (c, z)) db)) <$> ks)
  = length (filter (fun t => zone_start t = z) db).
Proof.
  intros Hnd Hin.
  rewrite <- (filter_sizes city (filter (fun t => zone_start t = z) db) ks Hnd).
  - f_equal. apply list_fmap_ext. intros _ c _.
    rewrite list_filter_filter. f_equal. apply list_filter_iff.
    intros t. split; [by intros [= -> ->]|by intros [-> ->]].
  - intros t Ht. apply list_elem_of_filter in Ht as [_ Ht]. by apply Hin.
Qed.

Lemma counter_sum_hour (db : list trip) (c d : string) :
  Forall (fun t => 0 <= hour t <= 23) db ->
  sum_list ((fun h => length (filter (fun t => (city t, date t, hour t) = (c, d, h)) db))
            <$> seqZ 0 24)
  = length (filter (fun t => (city t, date t) = (c, d)) db).
Proof.
  intros Hv.
  rewrite <- (filter_sizes hour (filter (fun t => (city t, date t) = (c, d)) db)
                (seqZ 0 24) (NoDup_seqZ 0 24)).
  - f_equal. apply list_fmap_ext. intros _ h _.
    rewrite list_filter_filter. f_equal. apply list_filter_iff.
    intros t. split; [by intros [= -> -> ->]|by intros [-> [= -> ->]]].
  - intros t Ht. apply list_elem_of_filter in Ht as [_ Ht].
    rewrite Forall_forall in Hv. apply elem_of_seqZ. specialize (Hv t Ht). lia.
Qed.

(** After a run, the zone counters of a zone, summed over the cities that
    [/cities] lists, give the number of trips that start in the zone, which
    is the trip_count of the zone in the ranking of [/top-zones]. *)
Theorem zone_counters_add_up_to_the_ranking (draw : nat -> Generator.sample)
    (N B : Z) (s0 : stores) (z : string) :
  let S := Generator.st_stores (Generator.run draw N B s0) in
  sum_list ((fun c => counter_read (c, z) (trips_by_zone S))
            <$> Api.get_cities (collection S))
    = length (filter (fun t => zone_start t = z) (collection S)) /\
  (forall n, (z, n) ∈ Analytics.top_zones (collection S) ->
     sum_list ((fun c => counter_read (c, z) (trips_by_zone S))
               <$> Api.get_cities (collection S)) = n).
Proof.
  intros S.
  assert (Hsum : sum_list ((fun c => counter_read (c, z) (trips_by_zone S))
                           <$> Api.get_cities (collection S))
                 = length (filter (fun t => zone_start t = z) (collection S))).
  { rewrite <- (counter_sum_zone (collection S) z (Api.get_cities (collection S))).
    - f_equal. apply list_fmap_ext. intros _ c _.
      unfold S. rewrite run_collection.
      unfold Generator.run. rewrite flush_by_zone, loop_by_zone.
      rewrite (filter_fmap_length Generator.mk_trip). simpl.
      unfold counter_read. by rewrite lookup_empty.
    - apply NoDup_remove_dups.
    - intros t Ht. apply elem_of_remove_dups, list_elem_of_fmap. eauto. }
  split; [done|]. intros n Hn. apply top_zones_spec in Hn as [_ ->]. done.
Qed.

(** After a run whose timestamps are valid, the 24 hour counters of a city
    and a date add up to the number of stored trips of that city on that
    date, which is the trip_count of the date in [/stats/daily] filtered by
    the city. *)
Theorem hour_counters_add_up_to_the_day (draw : nat -> Generator.sample)
    (N B : Z) (s0 : stores) (c d : string) :
  (forall i, (i < Z.to_nat N)%nat -> Datetime.valid (Generator.s_ts (draw i))) ->
  let S := Generator.st_stores (Generator.run draw N B s0) in
  sum_list ((fun h => counter_read (c, d, h) (trips_by_hour S)) <$> seqZ 0 24)
    = length (filter (fun t => (city t, date t) = (c, d)) (collection S)) /\
  (forall n, (d, n) ∈ Api.daily_rows (Api.match_city c (collection S)) ->
     sum_list ((fun h => counter_read (c, d, h) (trips_by_hour S)) <$> seqZ 0 24) = n).
Proof.
  intros Hvalid S.
  assert (Hv : Forall (fun t => 0 <= hour t <= 23) (collection S)).
  { unfold S. rewrite run_collection. apply Forall_fmap, samples_Forall.
    intros i Hi. destruct (Hvalid i Hi) as (_ & _ & _ & Hh & _). exact Hh. }
  assert (Hsum : sum_list ((fun h => counter_read (c, d, h) (trips_by_hour S))
                           <$> seqZ 0 24)
                 = length (filter (fun t => (city t, date t) = (c, d)) (collection S))).
  { rewrite <- (counter_sum_hour (collection S) c d Hv).
    f_equal. apply list_fmap_ext. intros _ h _.
    unfold S. rewrite run_collection.
    unfold Generator.run. rewrite flush_by_hour, loop_by_hour.
    rewrite (filter_fmap_length Generator.mk_trip). simpl.
    unfold counter_read. by rewrite lookup_empty. }
  split; [done|]. intros n Hn. rewrite Hsum.
  apply daily_rows_filtered in Hn as [_ ->]. f_equal.
  apply list_filter_iff. intros t. split; [by intros [= -> ->]|by intros [-> ->]].
Qed.

(** Three trips from Paris at [ts0]. *)
Lemma hour_counters_witness :
  let S := Generator.st_stores
             (Generator.run (fun _ => sample0 "Paris" "Zone A" 2) 3 2
                {| collection := []; trips_by_hour := ∅; trips_by_zone := ∅ |}) in
  sum_list ((fun h => counter_read ("Paris", "2026-11-03", h) (trips_by_hour S))
            <$> seqZ 0 24)
  = length (filter (fun t => (city t, date t) = ("Paris", "2026-11-03")) (collection S)).
Proof.
  assert (Hv : forall i : nat, (i < Z.to_nat 3)%nat ->
            Datetime.valid (Generator.s_ts (sample0 "Paris" "Zone A" 2)))
    by (intros i _; vm_compute; repeat split; discriminate).
  exact (proj1 (hour_counters_add_up_to_the_day
                  (fun _ => sample0 "Paris" "Zone A" 2) 3 2
                  {| collection := []; trips_by_hour := ∅; trips_by_zone := ∅ |}
                  "Paris" "2026-11-03" Hv)).
Defined.
